(** * aiosmtpd handlers: a shallow embedding of [aiosmtpd/handlers.py]

    The handlers receive a completed mail transaction
    [(peer, mailfrom, rcpttos, data, **kws)] and print it ([Debugging]),
    relay it to a second SMTP server ([Proxy]) or parse it into an
    [email] message with three provenance headers ([Message],
    [AsyncMessage]).

    A Python [str] is a list of code points, [bytes] a list of bytes, a
    [dict] a [gmap]; what a handler prints, logs or sends is recorded as a
    list of events. *)

From Stdlib Require Import NArith ZArith Strings.String Strings.Ascii Strings.Byte.
From stdpp Require Import base option list gmap strings pretty.

Local Open Scope N_scope.

(** ** Python strings *)

(** A [str] is a sequence of Unicode code points; a [bytes] object is a
    sequence of bytes. *)
Abbreviation str := (list N).
Abbreviation bytes := (list byte).

(** A string literal of the source, as a [str]. *)
Definition lit (s : string) : str :=
  (fun a => N_of_ascii a) <$> list_ascii_of_string s.
Arguments lit : simpl never.

Definition LF : N := 10.
Definition CR : N := 13.

(** [COMMASPACE = ', '] and [NEWLINE = '\n'] *)
Definition COMMASPACE : str := lit ", ".
Definition NEWLINE : str := [LF].

(** [sep.join(parts)] *)
Fixpoint join (sep : str) (parts : list str) : str :=
  match parts with
  | [] => []
  | [p] => p
  | p :: rest => p ++ sep ++ join sep rest
  end.

(** [s.split('\n')]: the pieces between line feeds; there is always at
    least one piece, and a trailing line feed leaves an empty last piece. *)
Fixpoint split_lf (s : str) : list str :=
  match s with
  | [] => [[]]
  | c :: s' =>
      if N.eqb c LF then [] :: split_lf s'
      else match split_lf s' with
           | [] => [[c]]
           | l :: ls => (c :: l) :: ls
           end
  end.

(** [not line] for a [str] or [bytes] line: true on the empty one only. *)
Definition not_ {A} (line : list A) : bool :=
  match line with [] => true | _ => false end.

(** [lines.insert(i, x)]; an index past the end appends. *)
Definition list_insert_at {A} (i : nat) (x : A) (l : list A) : list A :=
  take i l ++ x :: drop i l.

(** ** Line boundaries of [splitlines]

    [str.splitlines()] breaks at LF, CR, CRLF, VT, FF, FS, GS, RS, NEL, LS
    and PS; [bytes.splitlines()] at LF, CR and CRLF only.  Neither keeps a
    final empty line. *)
Section Splitlines.
Context {A : Type}.
Variable is_break : A -> bool.
Variable is_cr : A -> bool.
Variable is_lf : A -> bool.

Fixpoint splitlines_gen (s : list A) : list (list A) :=
  match s with
  | [] => []
  | c :: s' =>
      if is_break c then
        [] :: match s' with
              | d :: s'' =>
                  if is_cr c && is_lf d then splitlines_gen s''
                  else splitlines_gen s'
              | [] => splitlines_gen s'
              end
      else match splitlines_gen s' with
           | [] => [[c]]
           | l :: ls => (c :: l) :: ls
           end
  end.
End Splitlines.

Definition str_is_break (c : N) : bool :=
  bool_decide (c ∈ [10; 13; 11; 12; 28; 29; 30; 133; 8232; 8233]).

Definition str_splitlines (s : str) : list str :=
  splitlines_gen str_is_break (N.eqb CR) (N.eqb LF) s.

Definition byte_is (n : N) (b : byte) : bool := N.eqb (Byte.to_N b) n.

Definition bytes_splitlines (b : bytes) : list bytes :=
  splitlines_gen (fun c => byte_is LF c || byte_is CR c) (byte_is CR) (byte_is LF) b.


(** ** Transactions *)

(** The body of a transaction: a [str] when the server decodes the data,
    [bytes] otherwise. *)
Inductive content :=
  | Str (s : str)
  | Bytes (b : bytes).

(** The peer address, a [(host, port)] tuple. *)
Record Peer := mkPeer { host : str; port : Z }.

(** A refusal dictionary of [smtplib]: recipient to [(code, message)]. *)
Abbreviation refusals := (gmap str (Z * content)).

(** ** Exceptions *)

Inductive exn :=
  | SMTPRecipientsRefused (recipients : refusals)
      (** [smtplib.SMTPRecipientsRefused], with its [recipients] *)
  | OSError (cls : string) (smtp_code : option Z) (smtp_error : option content)
      (** any other [OSError], the other [smtplib.SMTPException]s among
          them, with the attributes [smtp_code] and [smtp_error] when the
          instance has them *)
  | AssertionError (msg : str)
  | SystemExit (status : Z) (message : str)
      (** what [parser.error(message)] of [argparse] raises, after it has
          printed the usage and [message] *)
  | OtherException (cls : string).
      (** an exception outside these classes *)

(** ** Effects *)

(** An open text file. *)
Inductive textfile :=
  | Stdout
  | Stderr
  | OtherFile (name : string).

Inductive log_arg :=
  | ArgNone
  | ArgRefused (refused : refusals)
  | ArgClass (cls : string).

Inductive event :=
  | Print (text : str) (file : textfile)        (** [print(text, file=file)] *)
  | LogInfo (fmt : string) (arg : log_arg)    (** [log.info(fmt, arg)] *)
  | LogException (fmt : string) (arg : log_arg)
  | Connect (hostname : str) (port : Z)       (** [s.connect(hostname, port)] *)
  | Sendmail (mailfrom : str) (rcpttos : list str) (data : str)
  | Quit.                                     (** [s.quit()] *)

(** The local variable [refused] of [Proxy._deliver] and what has happened
    so far. *)
Record state := mkState { refused : refusals; events : list event }.

(** A statement either raises or returns, and leaves a state. *)
Definition M (A : Type) : Type := state -> (exn + A) * state.

#[export] Instance M_ret : MRet M := fun A (a : A) st => (inr a, st).

#[export] Instance M_bind : MBind M := fun A B (k : A -> M B) (m : M A) st =>
  match m st with
  | (inl e, st') => (inl e, st')
  | (inr a, st') => k a st'
  end.

Definition raise {A} (e : exn) : M A := fun st => (inl e, st).

Definition emit (ev : event) : M unit := fun st =>
  (inr tt, mkState (refused st) (events st ++ [ev])).

Definition get_refused : M refusals := fun st => (inr (refused st), st).

Definition set_refused (d : refusals) : M unit := fun st =>
  (inr tt, mkState d (events st)).

(** [try: body finally: final]: [final] runs however [body] ends, and an
    exception of [final] replaces the outcome of [body]. *)
Definition try_finally {A} (body : M A) (final : M unit) : M A := fun st =>
  match body st with
  | (r, st1) =>
      match final st1 with
      | (inl e, st2) => (inl e, st2)
      | (inr _, st2) => (r, st2)
      end
  end.

(** [try: body except ...: handler]: [handler e] is [None] when no clause
    matches [e], which then propagates. *)
Definition try_except {A} (body : M A) (handler : exn -> option (M A)) : M A :=
  fun st =>
    match body st with
    | (inl e, st1) =>
        match handler e with
        | Some h => h st1
        | None => (inl e, st1)
        end
    | (inr a, st1) => (inr a, st1)
    end.

(** [for x in xs: body x] *)
Fixpoint for_each {A} (xs : list A) (body : A -> M unit) : M unit :=
  match xs with
  | [] => mret tt
  | x :: rest => body x ;; for_each rest body
  end.

Definition run {A} (m : M A) : (exn + A) * list event :=
  match m (mkState ∅ []) with
  | (r, st) => (r, events st)
  end.

(** ** The downstream SMTP server

    One delivery calls [connect], [sendmail] and [quit] at most once each,
    so what the server does is given by how each of the three calls ends. *)
Record remote := mkRemote {
  connect_outcome : option exn;           (** [None]: connected *)
  sendmail_outcome : exn + refusals;      (** raised, or the refusals returned *)
  quit_outcome : option exn               (** [None]: closed *)
}.

Definition smtp_connect (R : remote) (hostname : str) (p : Z) : M unit :=
  emit (Connect hostname p) ;;
  match connect_outcome R with
  | Some e => raise e
  | None => mret tt
  end.

Definition smtp_sendmail (R : remote) (mailfrom : str) (rcpttos : list str)
    (data : str) : M refusals :=
  emit (Sendmail mailfrom rcpttos data) ;;
  match sendmail_outcome R with
  | inl e => raise e
  | inr d => mret d
  end.

Definition smtp_quit (R : remote) : M unit :=
  emit Quit ;;
  match quit_outcome R with
  | Some e => raise e
  | None => mret tt
  end.

(** ** What the handlers take from Python's library

    [repr] of a peer tuple (which is also its [str]), the ['%s'] rendering
    of an option list, [bytes.decode('utf-8', 'replace')] and the parser of
    the [email] package are not part of this repository: the handlers are
    modelled over any implementation of them. *)

(** An [email.message.Message]: its header list and its payload. *)
Record EmailMessage (Payload : Type) := mkMessage {
  _headers : list (str * str);
  _payload : Payload
}.
Arguments mkMessage {Payload} _ _.
Arguments _headers {Payload} _.
Arguments _payload {Payload} _.

Class PythonLib := {
  repr_peer : Peer -> str;
  format_options : list str -> str;
  decode_utf8_replace : bytes -> str;
  Payload : Type;
  MessageClass : Type;
  (** [email.parser.Parser(_class).parsestr(text)] *)
  parsestr : option MessageClass -> str -> EmailMessage Payload
}.

(** [message[name] = val]: [Message.__setitem__] appends the header and
    keeps the ones already there. *)
Definition __setitem__ {P} (name val : str) (message : EmailMessage P) : EmailMessage P :=
  mkMessage (_headers message ++ [(name, val)]) (_payload message).

(** [bytes.decode('ascii', 'surrogateescape')]: a byte below 128 is its
    code point, a byte [b] from 128 on becomes the lone surrogate
    [0xDC00 + b]. *)
Definition decode_ascii_surrogateescape (b : bytes) : str :=
  (fun x => let n := Byte.to_N x in if n <? 128 then n else 56320 + n) <$> b.

Section Email.
Context `{PythonLib}.

(** [email.message_from_string(s, _class)] *)
Definition message_from_string (s : str) (_class : option MessageClass) :=
  parsestr _class s.

(** [email.message_from_bytes(b, _class)]: the bytes parser decodes its
    input as ASCII with [surrogateescape] and parses the text. *)
Definition message_from_bytes (b : bytes) (_class : option MessageClass) :=
  parsestr _class (decode_ascii_surrogateescape b).
End Email.

(** [_format_peer] *)
Definition _format_peer `{PythonLib} (peer : Peer) : str :=
  lit "X-Peer: " ++ repr_peer peer.

(** ** class Debugging *)
Module Debugging.
Record t := mk { stream : textfile }.

(** [Debugging.__init__] *)
Definition __init__ (stream : option textfile) : t :=
  mk (match stream with None => Stdout | Some f => f end).

(** [Debugging.from_cli]; [parser.error] does not return. *)
Definition from_cli (args : list str) : exn + t :=
  let '(error, stream) :=
    if bool_decide (length args = 0%nat) then (false, None)
    else if bool_decide (1 < length args)%nat then (true, None)
    else if bool_decide (args !! 0%nat = Some (lit "stdout")) then (false, Some Stdout)
    else if bool_decide (args !! 0%nat = Some (lit "stderr")) then (false, Some Stderr)
    else (true, None) in
  if (error : bool) then inl (SystemExit 2 (lit "Debugging usage: [stdout|stderr]"))
  else inr (__init__ stream).

Section Printing.
Context `{PythonLib}.
Variable self : t.
Variable peer : Peer.

(** The loop of [_print_message_content] over the lines of [data];
    [decode] is what is done to a line before it is printed. *)
Fixpoint print_lines {A} (decode : list A -> str) (lines : list (list A))
    (in_headers : bool) : M unit :=
  match lines with
  | [] => mret tt
  | line :: rest =>
      let at_blank := in_headers && not_ line in
      (if at_blank then emit (Print (_format_peer peer) (stream self))
       else mret tt) ;;
      emit (Print (decode line) (stream self)) ;;
      print_lines decode rest (if at_blank then false else in_headers)
  end.

(** [Debugging._print_message_content] *)
Definition _print_message_content (data : content) : M unit :=
  match data with
  | Str s => print_lines (fun line => line) (str_splitlines s) true
  | Bytes b => print_lines decode_utf8_replace (bytes_splitlines b) true
  end.

(** [Debugging.process_message] *)
Definition process_message (mailfrom : str) (rcpttos : list str)
    (data : content) (kws : gmap string (list str)) : M unit :=
  emit (Print (lit "---------- MESSAGE FOLLOWS ----------") (stream self)) ;;
  (if bool_decide (kws = ∅) then mret tt
   else
     match kws !! "mail_options"%string with
     | Some o => emit (Print (lit "mail options: " ++ format_options o) (stream self))
     | None => mret tt
     end ;;
     match kws !! "rcpt_options"%string with
     | Some o => emit (Print (lit "rcpt options: " ++ format_options o ++ [LF]) (stream self))
     | None => mret tt
     end) ;;
  _print_message_content data ;;
  emit (Print (lit "------------ END MESSAGE ------------") (stream self)).
End Printing.
End Debugging.

(** ** class Proxy *)
Module Proxy.
Record t := mk { _hostname : str; _port : Z }.

(** [Proxy._deliver] *)
Definition _deliver (self : t) (R : remote) (mailfrom : str)
    (rcpttos : list str) (data : str) : M refusals :=
  set_refused ∅ ;;
  try_except
    (smtp_connect R (_hostname self) (_port self) ;;
     try_finally
       (d ← smtp_sendmail R mailfrom rcpttos data; set_refused d)
       (smtp_quit R))
    (fun e =>
       match e with
       | SMTPRecipientsRefused recipients =>
           Some (emit (LogInfo "got SMTPRecipientsRefused" ArgNone) ;;
                 set_refused recipients)
       | OSError cls smtp_code smtp_error =>
           Some (emit (LogException "got" (ArgClass cls)) ;;
                 let errcode := default (-1)%Z smtp_code in
                 let errmsg := default (Str (lit "ignore")) smtp_error in
                 for_each rcpttos (fun r =>
                   d ← get_refused; set_refused (<[r := (errcode, errmsg)]> d)))
       | _ => None
       end) ;;
  get_refused.

(** The loop of [process_message] that looks for the last header: the
    index of the first empty line, or the number of lines. *)
Fixpoint first_blank (lines : list str) (i : nat) : nat :=
  match lines with
  | [] => i
  | line :: rest => if not_ line then i else first_blank rest (S i)
  end.

(** [Proxy.process_message].  The method splits and joins [data] with
    [str] arguments, so [data] is a [str] here. *)
Definition process_message (self : t) (R : remote) (peer : Peer)
    (mailfrom : str) (rcpttos : list str) (data : str) : M unit :=
  let lines := split_lf data in
  let i := first_blank lines 0 in
  let lines := list_insert_at i (lit "X-Peer: " ++ host peer) lines in
  let data := join NEWLINE lines in
  refused ← _deliver self R mailfrom rcpttos data;
  emit (LogInfo "we got some refusals: %s" (ArgRefused refused)).
End Proxy.

(** ** class Message and class AsyncMessage *)

(** What [process_message] may be handed as [data]: a [str], [bytes], or
    an object of another type, of which only [str(type(data))] matters. *)
Inductive object :=
  | Data (c : content)
  | Object (type_str : str).

Module Message.
Section Handler.
Context `{PythonLib}.

Record t := mk { message_class : option MessageClass }.

(** What the subclass does with the message, whatever that is. *)
Context {Handled : Type}.
Variable handle_message : EmailMessage Payload -> Handled.

(** [Message.process_message] *)
Definition process_message (self : t) (peer : Peer) (mailfrom : str)
    (rcpttos : list str) (data : object) : exn + Handled :=
  match
    match data with
    | Data (Bytes b) => inr (message_from_bytes b (message_class self))
    | Data (Str s) => inr (message_from_string s (message_class self))
    | Object type_str =>
        inl (AssertionError (lit "Expected str or bytes, got " ++ type_str))
    end
  with
  | inl e => inl e
  | inr message =>
      let message := __setitem__ (lit "X-Peer") (repr_peer peer) message in
      let message := __setitem__ (lit "X-MailFrom") mailfrom message in
      let message := __setitem__ (lit "X-RcptTos") (join COMMASPACE rcpttos) message in
      inr (handle_message message)
  end.
End Handler.
End Message.

Module AsyncMessage.
Section Handler.
Context `{PythonLib}.
Context {Loop Handled : Type}.
Variable handle_message : EmailMessage Payload -> Loop -> Handled.

(** [AsyncMessage.process_message]: the coroutine run to its end. *)
Definition process_message (self : Message.t) (peer : Peer) (mailfrom : str)
    (rcpttos : list str) (data : object) (loop : Loop) : exn + Handled :=
  match
    match data with
    | Data (Bytes b) => inr (message_from_bytes b (Message.message_class self))
    | Data (Str s) => inr (message_from_string s (Message.message_class self))
    | Object type_str =>
        inl (AssertionError (lit "Expected str or bytes, got " ++ type_str))
    end
  with
  | inl e => inl e
  | inr message =>
      let message := __setitem__ (lit "X-Peer") (repr_peer peer) message in
      let message := __setitem__ (lit "X-MailFrom") mailfrom message in
      let message := __setitem__ (lit "X-RcptTos") (join COMMASPACE rcpttos) message in
      inr (handle_message message loop)
  end.
End Handler.
End AsyncMessage.

(** ** Vocabulary of the properties *)

(** Some line is blank. *)
Definition has_blank {A} (lines : list (list A)) : bool := existsb not_ lines.

(** A body whose lines each end with CR LF. *)
Definition crlf_terminated (lines : list str) : str :=
  concat ((fun l => l ++ [CR; LF]) <$> lines).

(** What [Proxy.process_message] does once it has the body to deliver. *)
Definition relay (self : Proxy.t) (R : remote) (mailfrom : str)
    (rcpttos : list str) (body : str) : M unit :=
  refused ← Proxy._deliver self R mailfrom rcpttos body;
  emit (LogInfo "we got some refusals: %s" (ArgRefused refused)).

(** An exception that one of the two [except] clauses of [_deliver]
    takes: a refusal of all recipients, or a transport or protocol failure. *)
Definition is_caught (e : exn) : bool :=
  match e with
  | SMTPRecipientsRefused _ | OSError _ _ _ => true
  | _ => false
  end.


(** The exception with which the delivery attempt ends, if any: that of
    [connect]; else that of [quit], which replaces one of [sendmail]; else
    that of [sendmail]. *)
Definition attempt_failure (R : remote) : option exn :=
  match connect_outcome R with
  | Some e => Some e
  | None =>
      match quit_outcome R with
      | Some e => Some e
      | None =>
          match sendmail_outcome R with
          | inl e => Some e
          | inr _ => None
          end
      end
  end.

(** The value of [refused] when the attempt ends: what [sendmail]
    returned, if it was called and returned. *)
Definition attempt_refused (R : remote) : refusals :=
  match connect_outcome R, sendmail_outcome R with
  | None, inr d => d
  | _, _ => ∅
  end.

(** The calls made on the session. *)
Definition session_calls (self : Proxy.t) (R : remote) (mailfrom : str)
    (rcpttos : list str) (data : str) : list event :=
  Connect (Proxy._hostname self) (Proxy._port self)
  :: match connect_outcome R with
     | None => [Sendmail mailfrom rcpttos data; Quit]
     | Some _ => []
     end.

Definition is_log (ev : event) : bool :=
  match ev with LogInfo _ _ | LogException _ _ => true | _ => false end.



Definition is_quit (ev : event) : bool :=
  match ev with Quit => true | _ => false end.

(** How many of the events satisfy [p]. *)
Definition calls (p : event -> bool) (evs : list event) : nat :=
  length (List.filter p evs).

(** [str.encode('utf-8')]: one to four bytes for a code point; a
    surrogate or a value past U+10FFFF cannot be encoded. *)
Definition utf8_units (c : N) : option (list N) :=
  if c <? 128 then Some [c]
  else if c <? 2048 then Some [192 + c / 64; 128 + c mod 64]
  else if c <? 65536 then
    if (55296 <=? c) && (c <=? 57343) then None
    else Some [224 + c / 4096; 128 + (c / 64) mod 64; 128 + c mod 64]
  else if c <? 1114112 then
    Some [240 + c / 262144; 128 + (c / 4096) mod 64; 128 + (c / 64) mod 64;
          128 + c mod 64]
  else None.

Fixpoint encode_utf8 (s : str) : option bytes :=
  match s with
  | [] => Some []
  | c :: s' =>
      match utf8_units c with
      | Some units =>
          match mapM Byte.of_N units, encode_utf8 s' with
          | Some b, Some rest => Some (b ++ rest)
          | _, _ => None
          end
      | None => None
      end
  end.

Section DebugOutput.
Context `{PythonLib}.

(** The lines [Debugging] prints for the body, and whether one of the
    lines it splits the body into is blank. *)
Definition content_lines (data : content) : list str :=
  match data with
  | Str s => str_splitlines s
  | Bytes b => decode_utf8_replace <$> bytes_splitlines b
  end.

Definition content_has_blank (data : content) : bool :=
  match data with
  | Str s => has_blank (str_splitlines s)
  | Bytes b => has_blank (bytes_splitlines b)
  end.

(** The lines [Debugging] prints for the options. *)
Definition option_lines (kws : gmap string (list str)) : list str :=
  match kws !! "mail_options"%string with
  | Some o => [lit "mail options: " ++ format_options o]
  | None => []
  end ++
  match kws !! "rcpt_options"%string with
  | Some o => [lit "rcpt options: " ++ format_options o ++ [LF]]
  | None => []
  end.
End DebugOutput.

(** A stand-in for the library, to run the handlers on examples.  It
    renders a peer as Python does when the host is printable ASCII without
    quote or backslash, decodes ASCII bytes, and parses a text made of one
    line that is not a header line as Python does: no header, the text as
    the payload. *)
Definition example_lib : PythonLib := {|
  repr_peer peer :=
    lit "('" ++ host peer ++ lit "', " ++ lit (pretty (port peer)) ++ lit ")";
  format_options o :=
    lit "[" ++ join (lit ", ") ((fun x => lit "'" ++ x ++ lit "'") <$> o) ++ lit "]";
  decode_utf8_replace b :=
    (fun x => let n := Byte.to_N x in if n <? 128 then n else 65533) <$> b;
  Payload := str;
  MessageClass := unit;
  parsestr _ text := mkMessage [] text
|}.

(** [text] as printed by the handler [self]. *)
Definition printed (self : Debugging.t) (text : str) : event :=
  Print text (Debugging.stream self).

(** The message decoded from a body. *)
Definition decoded `{PythonLib} (self : Message.t) (c : content) : EmailMessage Payload :=
  match c with
  | Bytes b => message_from_bytes b (Message.message_class self)
  | Str s => message_from_string s (Message.message_class self)
  end.

(** Running a statement: unfold the monad down to states. *)
Ltac run_m :=
  repeat (progress (unfold mbind, mret, M_bind, M_ret, emit, raise, get_refused,
                    set_refused, try_finally, try_except; cbn)).

(** ** class Sink *)
Module Sink.
Inductive t : Set := mk.

(** [Sink.from_cli]; [parser.error] does not return. *)
Definition from_cli (args : list str) : exn + t :=
  if bool_decide (0 < length args)%nat
  then inl (SystemExit 2 (lit "Sink handler does not accept arguments"))
  else inr mk.

(** [Sink.process_message] *)
Definition process_message (self : t) (peer : Peer) (mailfrom : str)
    (rcpttos : list str) (data : content) (kws : gmap string (list str)) : M unit :=
  mret tt.
End Sink.

(** The body [Proxy.process_message] builds from [data] before it calls
    [_deliver]: the first four statements of the method. *)
Definition with_peer_line (peer : Peer) (data : str) : str :=
  let lines := split_lf data in
  let i := Proxy.first_blank lines 0 in
  let lines := list_insert_at i (lit "X-Peer: " ++ host peer) lines in
  join NEWLINE lines.

(** The characters of the lines and one more for each line. *)
Definition lines_size (lines : list str) : nat :=
  foldr (fun l n => S (length l + n)) 0%nat lines.

(** A byte that is ASCII and no line boundary of [str.splitlines] other
    than LF and CR. *)
Definition plain_byte (x : byte) : bool :=
  (Byte.to_N x <? 128)
  && negb (bool_decide (Byte.to_N x ∈ [11; 12; 28; 29; 30])).


(** The texts the loop of [_print_message_content] prints for the lines of
    a body: every line as decoded, and the peer line before the first
    blank one. *)
Fixpoint body_texts {A} (peer_line : str) (decode : list A -> str)
    (lines : list (list A)) : list str :=
  match lines with
  | [] => []
  | line :: rest =>
      if not_ line then peer_line :: decode line :: (decode <$> rest)
      else decode line :: body_texts peer_line decode rest
  end.

Definition content_texts `{PythonLib} (peer : Peer) (data : content) : list str :=
  match data with
  | Str s => body_texts (_format_peer peer) (fun line => line) (str_splitlines s)
  | Bytes b => body_texts (_format_peer peer) decode_utf8_replace (bytes_splitlines b)
  end.

(** * Properties *)

(** ** Lines of a [str] *)
Section Lines.
Implicit Types (s p : str) (lines : list str).

Lemma not_cons {A} (x : A) (l : list A) : not_ (x :: l) = false.
Proof. reflexivity. Qed.

Lemma has_blank_cons {A} (l : list A) (ls : list (list A)) :
  has_blank (l :: ls) = false -> not_ l = false /\ has_blank ls = false.
Proof. unfold has_blank; simpl. apply orb_false_elim. Qed.

(** A list with a blank line has a first one. *)
Lemma has_blank_split {A} (ls : list (list A)) :
  has_blank ls = true ->
  exists headers rest, ls = headers ++ [] :: rest /\ has_blank headers = false.
Proof.
  induction ls as [|l ls IH]; [done|].
  destruct l as [|c l].
  - intros _. by exists [], ls.
  - intros Hb. destruct (IH Hb) as (headers & rest & -> & Hh).
    by exists ((c :: l) :: headers), rest.
Qed.

Lemma first_blank_app headers rest i :
  has_blank headers = false ->
  Proxy.first_blank (headers ++ [] :: rest) i = (i + length headers)%nat.
Proof.
  revert i. induction headers as [|l ls IH]; intros i Hh; simpl.
  - lia.
  - apply has_blank_cons in Hh as [-> Hls]. rewrite IH by done. lia.
Qed.

Lemma first_blank_none lines i :
  has_blank lines = false ->
  Proxy.first_blank lines i = (i + length lines)%nat.
Proof.
  revert i. induction lines as [|l ls IH]; intros i Hh; simpl.
  - lia.
  - apply has_blank_cons in Hh as [-> Hls]. rewrite IH by done. lia.
Qed.

Lemma list_insert_at_app {A} (x : A) (l1 l2 : list A) :
  list_insert_at (length l1) x (l1 ++ l2) = l1 ++ x :: l2.
Proof.
  unfold list_insert_at. by rewrite take_app_length, drop_app_length.
Qed.

Lemma list_insert_at_end {A} (x : A) (l : list A) :
  list_insert_at (length l) x l = l ++ [x].
Proof.
  unfold list_insert_at. by rewrite firstn_all, drop_all.
Qed.

Lemma split_lf_nonempty s : split_lf s <> [].
Proof.
  destruct s as [|c s]; simpl; [done|].
  destruct (c =? LF); [done|]. by destruct (split_lf s).
Qed.

(** A piece without line feed is one line. *)
Lemma split_lf_line p : LF ∉ p -> split_lf p = [p].
Proof.
  induction p as [|c p IH]; intros Hp; simpl; [done|].
  apply not_elem_of_cons in Hp as [Hc Hp].
  destruct (N.eqb_spec c LF) as [->|_]; [done|].
  by rewrite IH.
Qed.

Lemma split_lf_app p s :
  LF ∉ p -> split_lf (p ++ LF :: s) = p :: split_lf s.
Proof.
  induction p as [|c p IH]; intros Hp; simpl; [done|].
  apply not_elem_of_cons in Hp as [Hc Hp].
  destruct (N.eqb_spec c LF) as [->|_]; [done|].
  by rewrite IH.
Qed.

Lemma split_lf_pieces s : Forall (fun l => LF ∉ l) (split_lf s).
Proof.
  induction s as [|c s IH]; simpl.
  - repeat constructor. apply not_elem_of_nil.
  - destruct (N.eqb_spec c LF) as [->|Hc].
    + constructor; [apply not_elem_of_nil|done].
    + destruct (split_lf s) as [|l ls].
      * repeat constructor. rewrite not_elem_of_cons. split; [done|apply not_elem_of_nil].
      * apply Forall_cons in IH as [Hl Hls]. constructor; [|done].
        by rewrite not_elem_of_cons.
Qed.

(** Joining with the newline undoes the split, and the other way round
    on lines that hold no line feed. *)
Lemma join_split_lf s : join NEWLINE (split_lf s) = s.
Proof.
  induction s as [|c s IH]; simpl; [done|].
  destruct (N.eqb_spec c LF) as [->|_].
  - destruct (split_lf s) eqn:E; simpl in *; [by subst|]. by rewrite IH.
  - destruct (split_lf s) as [|l ls] eqn:E; simpl in *; [by subst|].
    destruct ls; simpl in *; by rewrite <- IH.
Qed.

Lemma split_lf_join lines :
  lines <> [] -> Forall (fun l => LF ∉ l) lines ->
  split_lf (join NEWLINE lines) = lines.
Proof.
  intros Hne Hl. induction Hl as [|l ls Hl Hls IH]; [done|].
  destruct ls as [|l' ls]; simpl.
  - by apply split_lf_line.
  - rewrite split_lf_app by done. f_equal. by apply IH.
Qed.






End Lines.

(** ** RelayForwarder: where the peer line goes *)







(** The delivered body read back: when the peer host holds no line feed,
    its lines are the lines of the body with the peer line as one more
    line, at the index of the first blank line. *)
Lemma delivered_lines peer data :
  LF ∉ host peer ->
  let xpeer := lit "X-Peer: " ++ host peer in
  let lines := split_lf data in
  split_lf (join NEWLINE (list_insert_at (Proxy.first_blank lines 0) xpeer lines))
  = list_insert_at (Proxy.first_blank lines 0) xpeer lines.
Proof.
  intros Hh xpeer lines. apply split_lf_join.
  - unfold list_insert_at. by destruct (take _ _).
  - unfold list_insert_at. apply Forall_app. split.
    + apply Forall_take, split_lf_pieces.
    + constructor; [|apply Forall_drop, split_lf_pieces].
      unfold xpeer. rewrite not_elem_of_app. split; [|done].
      compute_done.
Qed.





(** The text body of the same three lines, as delivered. *)
Example crlf_body_delivered :
  run (Proxy.process_message (Proxy.mk (lit "relay.example") 25)
         (mkRemote None (inr ∅) None) (mkPeer (lit "192.0.2.7") 4000)
         (lit "a@x") [lit "b@y"]
         (crlf_terminated [lit "Subject: hi"; []; lit "text"]))
  = (inr tt,
     [Connect (lit "relay.example") 25;
      Sendmail (lit "a@x") [lit "b@y"]
        (lit "Subject: hi" ++ [CR; LF; CR; LF] ++ lit "text" ++ [CR; LF]
           ++ lit "X-Peer: 192.0.2.7" ++ [LF]);
      Quit;
      LogInfo "we got some refusals: %s" (ArgRefused ∅)]).
Proof. reflexivity. Qed.

(** ** RelayForwarder: the delivery attempt *)
Section Delivery.
Variable self : Proxy.t.
Variable R : remote.
Variables (mailfrom : str) (rcpttos : list str) (data : str).

(** The loop that refuses every recipient. *)
Lemma refuse_each (reply : Z * content) (body : str -> M unit)
    (rcpts : list str) st :
  (forall r st', body r st'
     = (inr tt, mkState (<[r := reply]> (refused st')) (events st'))) ->
  for_each rcpts body st
  = (inr tt, mkState (foldl (fun d r => <[r := reply]> d) (refused st) rcpts)
                     (events st)).
Proof.
  intros Hbody. revert st.
  induction rcpts as [|r rcpts IH]; intros [d evs]; [done|].
  cbn [for_each]. unfold mbind, M_bind. rewrite Hbody. cbn. by rewrite IH.
Qed.

Lemma refuse_each_lookup (reply : Z * content) (rcpts : list str) (d : refusals) r :
  foldl (fun d r => <[r := reply]> d) d rcpts !! r
  = if decide (r ∈ rcpts) then Some reply else d !! r.
Proof.
  revert d. induction rcpts as [|x rcpts IH]; intros d.
  - destruct (decide (r ∈ [])) as [Hr|_]; [|done]. by apply elem_of_nil in Hr.
  - cbn [foldl]. rewrite IH.
    destruct (decide (r ∈ rcpts)) as [Hin|Hnin];
      destruct (decide (r ∈ x :: rcpts)) as [Hin'|Hnin']; try done.
    + exfalso. apply Hnin'. by right.
    + apply elem_of_cons in Hin' as [->|?]; [|done]. by rewrite lookup_insert_eq.
    + apply lookup_insert_ne. intros ->. apply Hnin'. by left.
Qed.

(** [_deliver] in one piece: the calls on the session, then what the
    [except] clauses make of the exception the attempt ended with. *)
Lemma deliver_unfold st :
  Proxy._deliver self R mailfrom rcpttos data st
  = let evs := events st ++ session_calls self R mailfrom rcpttos data in
    match attempt_failure R with
    | None => (inr (attempt_refused R), mkState (attempt_refused R) evs)
    | Some (SMTPRecipientsRefused recipients) =>
        (inr recipients,
         mkState recipients (evs ++ [LogInfo "got SMTPRecipientsRefused" ArgNone]))
    | Some (OSError cls smtp_code smtp_error) =>
        let reply := (default (-1)%Z smtp_code,
                      default (Str (lit "ignore")) smtp_error) in
        let d := foldl (fun d r => <[r := reply]> d) (attempt_refused R) rcpttos in
        (inr d, mkState d (evs ++ [LogException "got" (ArgClass cls)]))
    | Some e => (inl e, mkState (attempt_refused R) evs)
    end.
Proof.
  destruct st as [d0 evs0].
  destruct R as [[ec|] [es|d] [eq|]];
    try destruct ec; try destruct es; try destruct eq;
    unfold Proxy._deliver, smtp_connect, smtp_sendmail, smtp_quit,
      session_calls, attempt_failure, attempt_refused;
    run_m; rewrite <- ?app_assoc; try reflexivity;
    (erewrite refuse_each by (intros; reflexivity));
    cbn; rewrite <- ?app_assoc; reflexivity.
Qed.
End Delivery.

(** A partial refusal comes back as [sendmail] returned it. *)
Example deliver_partial_refusal :
  run (Proxy._deliver (Proxy.mk (lit "relay.example") 25)
         (mkRemote None (inr {[ lit "c@z" := (550%Z, Str (lit "no such user")) ]}) None)
         (lit "a@x") [lit "b@y"; lit "c@z"] (lit "text"))
  = (inr {[ lit "c@z" := (550%Z, Str (lit "no such user")) ]},
     [Connect (lit "relay.example") 25;
      Sendmail (lit "a@x") [lit "b@y"; lit "c@z"] (lit "text"); Quit]).
Proof. reflexivity. Qed.

(** When [quit] fails after [sendmail] has returned, every recipient is
    refused with the failure of [quit]. *)
Example deliver_quit_fails :
  run (Proxy._deliver (Proxy.mk (lit "relay.example") 25)
         (mkRemote None (inr {[ lit "c@z" := (550%Z, Str (lit "no such user")) ]})
            (Some (OSError "SMTPServerDisconnected" None None)))
         (lit "a@x") [lit "b@y"; lit "c@z"] (lit "text"))
  = (inr {[ lit "b@y" := ((-1)%Z, Str (lit "ignore"));
            lit "c@z" := ((-1)%Z, Str (lit "ignore")) ]},
     [Connect (lit "relay.example") 25;
      Sendmail (lit "a@x") [lit "b@y"; lit "c@z"] (lit "text"); Quit;
      LogException "got" (ArgClass "SMTPServerDisconnected")]).
Proof. reflexivity. Qed.







(** An exception of another class is not absorbed: it leaves [_deliver]
    and [process_message], and nothing is logged. *)
Lemma other_exception_propagates self R peer mailfrom rcpttos data e :
  attempt_failure R = Some e -> is_caught e = false ->
  exists evs,
    run (Proxy.process_message self R peer mailfrom rcpttos data) = (inl e, evs)
    /\ calls is_log evs = 0%nat.
Proof.
  intros Hf He. unfold Proxy.process_message, run, mbind, M_bind.
  rewrite deliver_unfold, Hf. cbn zeta.
  destruct e; try discriminate He; cbn;
    (eexists; split; [reflexivity|]);
    unfold session_calls, calls; by destruct (connect_outcome R).
Qed.

(** C4. When the attempt ends in a transport or protocol failure, the
    refusals [_deliver] returns give every recipient of the transaction the
    pair of the failure's [smtp_code], or [-1] without one, and the
    failure's [smtp_error], or ['ignore'] without one; any other key is one
    that [sendmail] had returned. *)
Theorem C4_failure_refuses_every_recipient self R mailfrom rcpttos data
    cls smtp_code smtp_error :
  attempt_failure R = Some (OSError cls smtp_code smtp_error) ->
  exists refused : refusals,
    (run (Proxy._deliver self R mailfrom rcpttos data)).1 = inr refused
    /\ (forall r, r ∈ rcpttos ->
          refused !! r = Some (default (-1)%Z smtp_code,
                               default (Str (lit "ignore")) smtp_error))
    /\ (forall r, r ∉ rcpttos -> refused !! r = attempt_refused R !! r).
Proof.
  intros Hf. unfold run. rewrite deliver_unfold, Hf. cbn zeta.
  eexists. split; [reflexivity|].
  split; intros r Hr; rewrite refuse_each_lookup; by destruct (decide (r ∈ rcpttos)).
Qed.

Lemma C4_witness :
  exists refused : refusals,
    (run (Proxy._deliver (Proxy.mk (lit "relay.example") 25)
            (mkRemote (Some (OSError "ConnectionRefusedError" None None)) (inr ∅) None)
            (lit "a@x") [lit "b@y"; lit "c@z"] (lit "text"))).1 = inr refused
    /\ (forall r, r ∈ [lit "b@y"; lit "c@z"] ->
          refused !! r = Some ((-1)%Z, Str (lit "ignore")))
    /\ (forall r, r ∉ [lit "b@y"; lit "c@z"] -> refused !! r = None).
Proof.
  exact (C4_failure_refuses_every_recipient (Proxy.mk (lit "relay.example") 25)
           (mkRemote (Some (OSError "ConnectionRefusedError" None None)) (inr ∅) None)
           (lit "a@x") [lit "b@y"; lit "c@z"] (lit "text")
           "ConnectionRefusedError" None None eq_refl).
Defined.

(** C6, as the code has it.  Once [connect] has returned, [_deliver] calls
    [sendmail] once and then [quit] once, however [sendmail] ends, and
    only logs after that; when [connect] raises, neither [sendmail] nor
    [quit] is called. *)
Theorem C6_quit_after_every_submission self R mailfrom rcpttos data :
  let evs := (run (Proxy._deliver self R mailfrom rcpttos data)).2 in
  let connect := Connect (Proxy._hostname self) (Proxy._port self) in
  (connect_outcome R = None ->
     exists logs, evs = [connect; Sendmail mailfrom rcpttos data; Quit] ++ logs
                  /\ forallb is_log logs = true)
  /\ (connect_outcome R <> None ->
     exists logs, evs = connect :: logs /\ forallb is_log logs = true).
Proof.
  intros evs connect. unfold evs, run. rewrite deliver_unfold. cbn zeta.
  unfold session_calls. fold connect.
  split; intros Hc.
  - rewrite Hc.
    destruct (attempt_failure R) as [[]|]; cbn; eexists; split; reflexivity.
  - destruct (connect_outcome R) as [e|]; [|done].
    destruct (attempt_failure R) as [[]|]; cbn; eexists; split; reflexivity.
Qed.

Lemma C6_witness :
  exists logs,
    (run (Proxy._deliver (Proxy.mk (lit "relay.example") 25)
            (mkRemote None (inl (OSError "SMTPDataError" (Some 554%Z) None)) None)
            (lit "a@x") [lit "b@y"] (lit "text"))).2
    = [Connect (lit "relay.example") 25;
       Sendmail (lit "a@x") [lit "b@y"] (lit "text"); Quit] ++ logs
    /\ forallb is_log logs = true.
Proof.
  exact (proj1 (C6_quit_after_every_submission (Proxy.mk (lit "relay.example") 25)
                  (mkRemote None (inl (OSError "SMTPDataError" (Some 554%Z) None)) None)
                  (lit "a@x") [lit "b@y"] (lit "text")) eq_refl).
Defined.

(** C6, as it is worded, fails when the connection is refused: [_deliver]
    returns the refusal of the one recipient and [quit] was never called. *)
Lemma C6_counterexample :
  let result :=
    run (Proxy._deliver (Proxy.mk (lit "relay.example") 25)
           (mkRemote (Some (OSError "ConnectionRefusedError" None None)) (inr ∅) None)
           (lit "a@x") [lit "b@y"] (lit "text")) in
  result = (inr {[ lit "b@y" := ((-1)%Z, Str (lit "ignore")) ]},
            [Connect (lit "relay.example") 25;
             LogException "got" (ArgClass "ConnectionRefusedError")])
  /\ calls is_quit result.2 = 0%nat.
Proof. split; reflexivity. Qed.

(** ** DebugPrinter *)
Section Debug.
Context `{PythonLib}.
Variable self : Debugging.t.
Variable peer : Peer.

(** Past the headers, or without a blank line, the loop prints the
    lines and nothing else. *)
Lemma print_lines_plain {A} (decode : list A -> str) lines in_headers st :
  in_headers = false \/ has_blank lines = false ->
  Debugging.print_lines self peer decode lines in_headers st
  = (inr tt,
     mkState (refused st) (events st ++ (printed self ∘ decode <$> lines))).
Proof.
  revert in_headers st.
  induction lines as [|line rest IH]; intros b [d evs] Hb.
  - cbn. by rewrite app_nil_r.
  - assert (b && not_ line = false) as Hat.
    { destruct Hb as [->|Hb]; [done|].
      apply has_blank_cons in Hb as [-> _]. apply andb_false_r. }
    cbn [Debugging.print_lines]. rewrite Hat.
    unfold mbind, M_bind, mret, M_ret, emit. cbn.
    rewrite IH.
    + cbn. by rewrite <- app_assoc.
    + destruct Hb as [->|Hb]; [by left|right].
      by apply has_blank_cons in Hb as [_ ?].
Qed.

(** In the headers, the peer line is printed once, right before the
    first blank line. *)
Lemma print_lines_blank {A} (decode : list A -> str) headers rest st :
  has_blank headers = false ->
  Debugging.print_lines self peer decode (headers ++ [] :: rest) true st
  = (inr tt,
     mkState (refused st)
       (events st ++ (printed self ∘ decode <$> headers)
          ++ printed self (_format_peer peer) :: printed self (decode [])
             :: (printed self ∘ decode <$> rest))).
Proof.
  revert st. induction headers as [|line headers IH]; intros [d evs] Hb.
  - cbn [app Debugging.print_lines not_ andb].
    unfold mbind, M_bind, mret, M_ret, emit. cbn.
    rewrite print_lines_plain by (by left). cbn.
    by rewrite <- !app_assoc.
  - apply has_blank_cons in Hb as [Hline Hb].
    rewrite <- app_comm_cons. cbn [Debugging.print_lines]. rewrite Hline.
    unfold mbind, M_bind, mret, M_ret, emit. cbn.
    rewrite IH by done. cbn. by rewrite <- !app_assoc.
Qed.

(** Every line goes to the stream of the handler, and printing does not
    raise. *)
Lemma print_lines_stream {A} (decode : list A -> str) lines in_headers :
  exists texts, forall st,
    Debugging.print_lines self peer decode lines in_headers st
    = (inr tt, mkState (refused st) (events st ++ (printed self <$> texts))).
Proof.
  destruct in_headers.
  - destruct (has_blank lines) eqn:Hb.
    + apply has_blank_split in Hb as (headers & rest & -> & Hh).
      exists ((decode <$> headers) ++ _format_peer peer :: decode [] :: (decode <$> rest)).
      intros st. rewrite print_lines_blank by done.
      by rewrite fmap_app, !fmap_cons, <- !list_fmap_compose.
    + exists (decode <$> lines). intros st.
      rewrite print_lines_plain by (by right). by rewrite <- list_fmap_compose.
  - exists (decode <$> lines). intros st.
    rewrite print_lines_plain by (by left). by rewrite <- list_fmap_compose.
Qed.

(** [process_message] around the lines of the body. *)
Lemma debugging_run mailfrom rcpttos data kws texts :
  (forall st, Debugging._print_message_content self peer data st
              = (inr tt,
                 mkState (refused st) (events st ++ (printed self <$> texts)))) ->
  run (Debugging.process_message self peer mailfrom rcpttos data kws)
  = (inr tt,
     printed self
       <$> ([lit "---------- MESSAGE FOLLOWS ----------"] ++ option_lines kws
              ++ texts ++ [lit "------------ END MESSAGE ------------"])).
Proof.
  intros Hbody.
  assert (kws = ∅ -> option_lines kws = []) as Hempty.
  { intros ->. unfold option_lines. by rewrite !lookup_empty. }
  unfold Debugging.process_message, run, option_lines in *.
  unfold mbind, M_bind, mret, M_ret, emit. cbn.
  case_bool_decide as Hk.
  - rewrite Hbody, (Hempty Hk). cbn. by rewrite !fmap_app.
  - destruct (kws !! "mail_options"%string), (kws !! "rcpt_options"%string);
      cbn; rewrite Hbody; cbn; by rewrite !fmap_app, <- ?app_assoc.
Qed.

(** The loop, started in the headers, prints [body_texts]. *)
Lemma print_lines_texts {A} (decode : list A -> str) lines st :
  Debugging.print_lines self peer decode lines true st
  = (inr tt,
     mkState (refused st)
       (events st ++ (printed self <$> body_texts (_format_peer peer) decode lines))).
Proof.
  revert st. induction lines as [|line rest IH]; intros [d evs].
  - cbn. by rewrite app_nil_r.
  - cbn [Debugging.print_lines body_texts andb].
    unfold mbind, M_bind, mret, M_ret, emit.
    destruct (not_ line); cbn.
    + rewrite print_lines_plain by (by left). cbn.
      by rewrite <- !app_assoc, list_fmap_compose.
    + rewrite IH. cbn. by rewrite <- !app_assoc.
Qed.

(** All that [process_message] prints, in order. *)
Lemma debugging_output mailfrom rcpttos data kws :
  run (Debugging.process_message self peer mailfrom rcpttos data kws)
  = (inr tt,
     printed self
       <$> ([lit "---------- MESSAGE FOLLOWS ----------"] ++ option_lines kws
              ++ content_texts peer data
              ++ [lit "------------ END MESSAGE ------------"])).
Proof.
  apply debugging_run. intros st.
  destruct data as [s|b]; apply print_lines_texts.
Qed.
End Debug.



(** With a blank line in the headers the peer line is printed, once and
    right before it; here on a [bytes] body. *)
Example debugging_blank_line :
  run (Debugging.process_message (H := example_lib) (Debugging.mk Stdout)
         (mkPeer (lit "192.0.2.7") 4000) (lit "a@x") [lit "b@y"]
         (Bytes [x53; x75; x62; x3a; x0d; x0a; x0d; x0a; x74; x0a; x0a]) ∅)
  = (inr tt,
     [Print (lit "---------- MESSAGE FOLLOWS ----------") Stdout;
      Print (lit "Sub:") Stdout;
      Print (lit "X-Peer: ('192.0.2.7', 4000)") Stdout;
      Print [] Stdout;
      Print (lit "t") Stdout;
      Print [] Stdout;
      Print (lit "------------ END MESSAGE ------------") Stdout]).
Proof. reflexivity. Qed.

(** Everything [Debugging.process_message] does is a [print] to the stream
    of the handler. *)
Lemma debugging_prints_to_stream `{PythonLib} self peer mailfrom rcpttos data kws :
  exists texts,
    run (Debugging.process_message self peer mailfrom rcpttos data kws)
    = (inr tt, (fun text => Print text (Debugging.stream self)) <$> texts).
Proof.
  assert (exists texts, forall st,
             Debugging._print_message_content self peer data st
             = (inr tt, mkState (refused st)
                          (events st ++ ((fun text => Print text (Debugging.stream self))
                                           <$> texts)))) as [texts Ht].
  { destruct data as [s|b]; apply print_lines_stream. }
  eexists. by apply debugging_run.
Qed.

(** C8. [Debugging.from_cli] builds a handler on standard output from
    [["stdout"]], and one on standard error from [["stderr"]]; either then
    writes every message to its stream and nowhere else: the opening
    separator, the option lines, the body with its peer line, the closing
    separator.  It ends in the usage error on [["bogus"]], on any other
    single argument that is neither, and on every list of more than one
    argument. *)
Theorem C8_from_cli `{PythonLib} :
  let usage := SystemExit 2 (lit "Debugging usage: [stdout|stderr]") in
  let written file peer data kws :=
    (fun text => Print text file)
      <$> ([lit "---------- MESSAGE FOLLOWS ----------"] ++ option_lines kws
             ++ content_texts peer data
             ++ [lit "------------ END MESSAGE ------------"]) in
  Debugging.from_cli [lit "stdout"] = inr (Debugging.mk Stdout)
  /\ (forall peer mailfrom rcpttos data kws,
        run (Debugging.process_message (Debugging.mk Stdout) peer mailfrom rcpttos
               data kws)
        = (inr tt, written Stdout peer data kws))
  /\ Debugging.from_cli [lit "stderr"] = inr (Debugging.mk Stderr)
  /\ (forall peer mailfrom rcpttos data kws,
        run (Debugging.process_message (Debugging.mk Stderr) peer mailfrom rcpttos
               data kws)
        = (inr tt, written Stderr peer data kws))
  /\ Debugging.from_cli [lit "bogus"] = inl usage
  /\ (forall arg, arg <> lit "stdout" -> arg <> lit "stderr" ->
        Debugging.from_cli [arg] = inl usage)
  /\ (forall args, (1 < length args)%nat -> Debugging.from_cli args = inl usage).
Proof.
  intros usage written. repeat apply conj; try reflexivity.
  - intros. apply (debugging_output (Debugging.mk Stdout)).
  - intros. apply (debugging_output (Debugging.mk Stderr)).
  - intros arg H1 H2. unfold Debugging.from_cli. cbn [length lookup list_lookup].
    rewrite !bool_decide_eq_false_2; [done|congruence..|lia|done].
  - intros args Hlen. unfold Debugging.from_cli.
    rewrite bool_decide_eq_false_2 by lia.
    by rewrite bool_decide_eq_true_2 by lia.
Qed.

Lemma C8_witness :
  Debugging.from_cli [lit "-v"]
  = inl (SystemExit 2 (lit "Debugging usage: [stdout|stderr]"))
  /\ Debugging.from_cli [lit "stdout"; lit "stderr"]
     = inl (SystemExit 2 (lit "Debugging usage: [stdout|stderr]"))
  /\ run (Debugging.process_message (H := example_lib) (Debugging.mk Stdout)
            (mkPeer (lit "192.0.2.7") 4000) (lit "a@x") [lit "b@y"]
            (Str (lit "Subject: hi" ++ [LF; LF] ++ lit "text")) ∅)
     = (inr tt,
        [Print (lit "---------- MESSAGE FOLLOWS ----------") Stdout;
         Print (lit "Subject: hi") Stdout;
         Print (lit "X-Peer: ('192.0.2.7', 4000)") Stdout;
         Print [] Stdout;
         Print (lit "text") Stdout;
         Print (lit "------------ END MESSAGE ------------") Stdout]).
Proof.
  pose proof (C8_from_cli (H := example_lib))
    as (_ & Hout & _ & _ & _ & Hone & Hmany).
  split; [|split].
  - apply Hone; discriminate.
  - apply Hmany. cbn. lia.
  - exact (Hout (mkPeer (lit "192.0.2.7") 4000) (lit "a@x") [lit "b@y"]
             (Str (lit "Subject: hi" ++ [LF; LF] ++ lit "text")) ∅).
Defined.

(** No argument at all is accepted too: the handler prints to standard
    output. *)
Example from_cli_no_argument : Debugging.from_cli [] = inr (Debugging.mk Stdout).
Proof. reflexivity. Qed.

(** ** MessageEnricher *)
Section Enricher.
Context `{PythonLib}.
Context {Handled Loop : Type}.
Variable handle_message : EmailMessage Payload -> Handled.
Variable handle_message_async : EmailMessage Payload -> Loop -> Handled.

Implicit Types (self : Message.t) (peer : Peer) (mailfrom : str)
  (rcpttos : list str).


(** C5. [Message.process_message] decodes a [bytes] body with
    [message_from_bytes] and a [str] body with [message_from_string];
    handed anything else it raises, at the assertion, and
    [handle_message] is not reached. *)
Theorem C5_decode_by_type_or_fail self peer mailfrom rcpttos :
  let provenance message :=
    __setitem__ (lit "X-RcptTos") (join COMMASPACE rcpttos)
      (__setitem__ (lit "X-MailFrom") mailfrom
         (__setitem__ (lit "X-Peer") (repr_peer peer) message)) in
  (forall b,
      Message.process_message handle_message self peer mailfrom rcpttos
        (Data (Bytes b))
      = inr (handle_message
               (provenance (message_from_bytes b (Message.message_class self)))))
  /\ (forall s,
      Message.process_message handle_message self peer mailfrom rcpttos
        (Data (Str s))
      = inr (handle_message
               (provenance (message_from_string s (Message.message_class self)))))
  /\ (forall type_str,
      Message.process_message handle_message self peer mailfrom rcpttos
        (Object type_str)
      = inl (AssertionError (lit "Expected str or bytes, got " ++ type_str))).
Proof. by repeat split. Qed.

(** UTF-8 of ASCII text, decoded as ASCII, is the text. *)
Lemma encode_ascii (s : str) :
  Forall (fun c => c < 128) s ->
  exists b, encode_utf8 s = Some b /\ decode_ascii_surrogateescape b = s.
Proof.
  induction 1 as [|c s Hc _ (b & Hb & Hd)]; [by exists []|].
  cbn [encode_utf8]. unfold utf8_units.
  apply N.ltb_lt in Hc as Hc'. rewrite Hc', Hb. cbn [mapM].
  destruct (Byte.of_N c) as [x|] eqn:Hx.
  - exists (x :: b). split; [done|].
    unfold decode_ascii_surrogateescape in *. rewrite fmap_cons, Hd.
    apply Byte.to_of_N in Hx. cbn zeta. by rewrite Hx, Hc'.
  - apply Byte.of_N_None_iff in Hx. lia.
Qed.

(** The bytes parser reads nothing but ASCII characters and lone
    surrogates from U+DC80 to U+DCFF. *)
Lemma decode_ascii_surrogateescape_range (b : bytes) :
  Forall (fun c => c < 128 \/ (56448 <= c /\ c <= 56575))
    (decode_ascii_surrogateescape b).
Proof.
  unfold decode_ascii_surrogateescape. apply Forall_fmap, Forall_forall.
  intros x _. cbn. pose proof (Byte.to_N_bounded x) as Hx.
  destruct (N.ltb_spec (Byte.to_N x) 128); [by left|right; lia].
Qed.

(** Only a text without surrogate has an encoding. *)
Lemma encode_utf8_no_surrogate (s : str) (b : bytes) :
  encode_utf8 s = Some b -> Forall (fun c => ~ (55296 <= c /\ c <= 57343)) s.
Proof.
  revert b. induction s as [|c s IH]; intros b Hb; [constructor|].
  cbn [encode_utf8] in Hb.
  destruct (utf8_units c) as [units|] eqn:Hu; [|discriminate Hb].
  destruct (mapM Byte.of_N units) as [bs|]; [|discriminate Hb].
  destruct (encode_utf8 s) as [rest|]; [|discriminate Hb].
  constructor; [|by eapply IH].
  intros [Hlo Hhi]. unfold utf8_units in Hu.
  destruct (N.ltb_spec c 128); [lia|].
  destruct (N.ltb_spec c 2048); [lia|].
  destruct (N.ltb_spec c 65536); [|lia].
  destruct (N.leb_spec 55296 c); [|lia].
  destruct (N.leb_spec c 57343); [|lia].
  discriminate Hu.
Qed.

(** C7, as the code has it.  For ASCII text, the text and its encoding
    as bytes give the same message: same headers, the three provenance
    headers among them, and same payload.  For a text with a character
    that is not ASCII, the text that the bytes path hands to the parser is
    not the text itself. *)
Theorem C7_ascii_text_and_bytes_agree self peer mailfrom rcpttos (s : str) loop :
  (Forall (fun c => c < 128) s ->
   exists b,
     encode_utf8 s = Some b
     /\ Message.process_message handle_message self peer mailfrom rcpttos
          (Data (Bytes b))
        = Message.process_message handle_message self peer mailfrom rcpttos
            (Data (Str s))
     /\ AsyncMessage.process_message handle_message_async self peer mailfrom
          rcpttos (Data (Bytes b)) loop
        = AsyncMessage.process_message handle_message_async self peer mailfrom
            rcpttos (Data (Str s)) loop)
  /\ (forall b, encode_utf8 s = Some b -> ~ Forall (fun c => c < 128) s ->
       message_from_bytes b (Message.message_class self)
       = message_from_string (decode_ascii_surrogateescape b)
           (Message.message_class self)
       /\ decode_ascii_surrogateescape b <> s).
Proof.
  split.
  - intros Hs. destruct (encode_ascii s Hs) as (b & Hb & Hd).
    exists b. split; [done|].
    unfold Message.process_message, AsyncMessage.process_message,
      message_from_bytes, message_from_string.
    by rewrite Hd.
  - intros b Hb Hs. split; [done|]. intros Hd. apply Hs.
    pose proof (decode_ascii_surrogateescape_range b) as Hrange.
    pose proof (encode_utf8_no_surrogate s b Hb) as Hsur.
    rewrite Hd in Hrange.
    rewrite Forall_forall in *. intros c Hc.
    destruct (Hrange c Hc) as [?|[? ?]]; [done|].
    exfalso. apply (Hsur c Hc). lia.
Qed.
End Enricher.

(** C7, as it is worded, fails on the one-letter text U+00E9: its UTF-8
    encoding is two bytes, which the bytes parser reads as two lone
    surrogates, so the payload from the bytes is not the payload from the
    text. *)
Lemma C7_counterexample :
  let self := Message.mk (H := example_lib) None in
  let peer := mkPeer (lit "192.0.2.7") 4000 in
  let provenance :=
    [(lit "X-Peer", lit "('192.0.2.7', 4000)"); (lit "X-MailFrom", lit "a@x");
     (lit "X-RcptTos", lit "b@y, c@z")] in
  encode_utf8 [233] = Some [xc3; xa9]
  /\ Message.process_message (fun message => message) self peer (lit "a@x")
       [lit "b@y"; lit "c@z"] (Data (Str [233]))
     = inr (mkMessage provenance [233])
  /\ Message.process_message (fun message => message) self peer (lit "a@x")
       [lit "b@y"; lit "c@z"] (Data (Bytes [xc3; xa9]))
     = inr (mkMessage provenance [56515; 56489])
  /\ Message.process_message (fun message => message) self peer (lit "a@x")
       [lit "b@y"; lit "c@z"] (Data (Bytes [xc3; xa9]))
     <> Message.process_message (fun message => message) self peer (lit "a@x")
          [lit "b@y"; lit "c@z"] (Data (Str [233])).
Proof. repeat apply conj; try reflexivity. discriminate. Qed.

Lemma C7_witness :
  (exists b,
     encode_utf8 (lit "Subject: hi") = Some b
     /\ Message.process_message (H := example_lib) (fun message => message)
          (Message.mk None) (mkPeer (lit "192.0.2.7") 4000) (lit "a@x") [lit "b@y"]
          (Data (Bytes b))
        = Message.process_message (fun message => message)
            (Message.mk None) (mkPeer (lit "192.0.2.7") 4000) (lit "a@x") [lit "b@y"]
            (Data (Str (lit "Subject: hi")))
     /\ AsyncMessage.process_message (H := example_lib)
          (fun message (loop : unit) => message)
          (Message.mk None) (mkPeer (lit "192.0.2.7") 4000) (lit "a@x") [lit "b@y"]
          (Data (Bytes b)) tt
        = AsyncMessage.process_message (fun message (loop : unit) => message)
            (Message.mk None) (mkPeer (lit "192.0.2.7") 4000) (lit "a@x") [lit "b@y"]
            (Data (Str (lit "Subject: hi"))) tt)
  /\ decode_ascii_surrogateescape [xc3; xa9] <> [233].
Proof.
  split.
  - exact (proj1 (C7_ascii_text_and_bytes_agree (H := example_lib)
                    (fun message => message) (fun message (loop : unit) => message)
                    (Message.mk None) (mkPeer (lit "192.0.2.7") 4000) (lit "a@x")
                    [lit "b@y"] (lit "Subject: hi") tt)
             (bool_decide_unpack (Forall (fun c => c < 128) (lit "Subject: hi")) I)).
  - exact (proj2 (proj2 (C7_ascii_text_and_bytes_agree (H := example_lib)
                           (fun message => message)
                           (fun message (loop : unit) => message)
                           (Message.mk None) (mkPeer (lit "192.0.2.7") 4000)
                           (lit "a@x") [lit "b@y"] [233] tt)
                    [xc3; xa9] eq_refl
                    (bool_decide_unpack (~ Forall (fun c => c < 128) [233]) I))).
Defined.

(** * Further properties of the handlers *)

(** ** RelayForwarder: the body that is delivered *)

Lemma process_message_with_peer_line self R peer mailfrom rcpttos data :
  Proxy.process_message self R peer mailfrom rcpttos data
  = relay self R mailfrom rcpttos (with_peer_line peer data).
Proof. reflexivity. Qed.

Lemma first_blank_from lines k :
  Proxy.first_blank lines k = (k + Proxy.first_blank lines 0)%nat.
Proof.
  revert k. induction lines as [|l ls IH]; intros k; cbn [Proxy.first_blank].
  - lia.
  - destruct (not_ l); [lia|]. rewrite (IH (S k)), (IH 1%nat). lia.
Qed.

Lemma xpeer_no_LF peer : LF ∉ host peer -> LF ∉ lit "X-Peer: " ++ host peer.
Proof. intros Hh. rewrite not_elem_of_app. split; [compute_done|done]. Qed.

Lemma xpeer_not_blank peer : not_ (lit "X-Peer: " ++ host peer) = false.
Proof. reflexivity. Qed.

Lemma inserted_lines_LF_free peer data i :
  LF ∉ host peer ->
  Forall (fun l => LF ∉ l)
    (list_insert_at i (lit "X-Peer: " ++ host peer) (split_lf data)).
Proof.
  intros Hh. unfold list_insert_at. apply Forall_app. split.
  - apply Forall_take, split_lf_pieces.
  - constructor; [by apply xpeer_no_LF|apply Forall_drop, split_lf_pieces].
Qed.

Lemma list_insert_at_nonempty {A} i (x : A) l : list_insert_at i x l <> [].
Proof. unfold list_insert_at. by destruct (take i l). Qed.

Lemma first_blank_le (lines : list str) :
  (Proxy.first_blank lines 0 <= length lines)%nat.
Proof.
  induction lines as [|l ls IH]; cbn [Proxy.first_blank length]; [lia|].
  destruct (not_ l); [lia|]. rewrite first_blank_from. lia.
Qed.

(** X1. The scan of [Proxy.process_message] stays within the list: its
    index is at most the number of lines, no line before it is blank, the
    line at it is the blank one when there is a line there, and it is the
    number of lines exactly when no line is blank.  The insertion then
    makes the list one longer and puts the new line at that index. *)
Theorem X1_scan_within_bounds (lines : list str) (x : str) :
  let i := Proxy.first_blank lines 0 in
  (i <= length lines)%nat
  /\ has_blank (take i lines) = false
  /\ (forall line, lines !! i = Some line -> line = [])
  /\ (i = length lines <-> has_blank lines = false)
  /\ length (list_insert_at i x lines) = S (length lines)
  /\ list_insert_at i x lines !! i = Some x.
Proof.
  intros i. unfold i. destruct (has_blank lines) eqn:Hb.
  - apply has_blank_split in Hb as (headers & rest & -> & Hh).
    rewrite first_blank_app by done. cbn [Nat.add].
    rewrite take_app_length, list_insert_at_app, !length_app. cbn [length].
    split_and!.
    + lia.
    + done.
    + intros line. rewrite list_lookup_middle by done. congruence.
    + split; [intros; lia|done].
    + lia.
    + by rewrite list_lookup_middle.
  - rewrite first_blank_none by done. cbn [Nat.add].
    rewrite firstn_all, list_insert_at_end, length_app. cbn [length].
    split_and!.
    + lia.
    + done.
    + intros line Hl. apply lookup_lt_Some in Hl. lia.
    + done.
    + lia.
    + by rewrite list_lookup_middle.
Qed.

(** X2. What is delivered reads back as the body it came from: when the
    peer host holds no line feed, the lines of the delivered body are the
    lines of the original with the peer line at the index of the scan, and
    taking that one line out and joining again gives the original body. *)
Theorem X2_peer_line_removable self R peer mailfrom rcpttos data :
  LF ∉ host peer ->
  let i := Proxy.first_blank (split_lf data) 0 in
  let delivered := with_peer_line peer data in
  Proxy.process_message self R peer mailfrom rcpttos data
  = relay self R mailfrom rcpttos delivered
  /\ split_lf delivered !! i = Some (lit "X-Peer: " ++ host peer)
  /\ join NEWLINE (delete i (split_lf delivered)) = data.
Proof.
  intros Hh i delivered. split; [done|].
  unfold delivered, with_peer_line. fold i.
  rewrite split_lf_join
    by (apply list_insert_at_nonempty || by apply inserted_lines_LF_free).
  pose proof (first_blank_le (split_lf data)) as Hle. fold i in Hle.
  unfold list_insert_at.
  assert (length (take i (split_lf data)) = i) as Hlen
    by (rewrite length_take; lia).
  split.
  - rewrite <- Hlen at 1. by rewrite list_lookup_middle.
  - rewrite <- Hlen at 1. rewrite delete_middle, take_drop.
    apply join_split_lf.
Qed.

Lemma X2_witness :
  let peer := mkPeer (lit "192.0.2.7") 4000 in
  let data := lit "Subject: hi" ++ [LF; LF] ++ lit "text" in
  let delivered := with_peer_line peer data in
  Proxy.process_message (Proxy.mk (lit "relay.example") 25)
    (mkRemote None (inr ∅) None) peer (lit "a@x") [lit "b@y"] data
  = relay (Proxy.mk (lit "relay.example") 25) (mkRemote None (inr ∅) None)
      (lit "a@x") [lit "b@y"] delivered
  /\ split_lf delivered !! 1%nat = Some (lit "X-Peer: 192.0.2.7")
  /\ join NEWLINE (delete 1%nat (split_lf delivered)) = data.
Proof.
  exact (X2_peer_line_removable (Proxy.mk (lit "relay.example") 25)
           (mkRemote None (inr ∅) None) (mkPeer (lit "192.0.2.7") 4000)
           (lit "a@x") [lit "b@y"] (lit "Subject: hi" ++ [LF; LF] ++ lit "text")
           (bool_decide_unpack (LF ∉ lit "192.0.2.7") I)).
Defined.

Lemma lines_size_app (l1 l2 : list str) :
  lines_size (l1 ++ l2) = (lines_size l1 + lines_size l2)%nat.
Proof.
  unfold lines_size. induction l1 as [|l l1 IH]; cbn [foldr app]; [done|].
  rewrite IH. lia.
Qed.

Lemma join_size (lines : list str) :
  lines <> [] -> S (length (join NEWLINE lines)) = lines_size lines.
Proof.
  induction lines as [|l ls IH]; intros Hne; [done|].
  destruct ls as [|l' ls].
  - cbn. lia.
  - change (join NEWLINE (l :: l' :: ls))
      with (l ++ NEWLINE ++ join NEWLINE (l' :: ls)).
    change (lines_size (l :: l' :: ls))
      with (S (length l + lines_size (l' :: ls))).
    rewrite <- IH by done. rewrite !length_app. cbn [length NEWLINE]. lia.
Qed.

(** X3. The delivered body is longer than the original by the peer
    line and one line feed, that is by the length of the peer host and
    nine characters, whatever the body and wherever the line goes. *)
Theorem X3_delivered_length peer data :
  length (with_peer_line peer data) = (length data + length (host peer) + 9)%nat.
Proof.
  unfold with_peer_line.
  assert (S (length (join NEWLINE
               (list_insert_at (Proxy.first_blank (split_lf data) 0)
                  (lit "X-Peer: " ++ host peer) (split_lf data))))
          = S (length data + length (host peer) + 9)) as Hs; [|lia].
  rewrite join_size by apply list_insert_at_nonempty.
  unfold list_insert_at.
  rewrite lines_size_app.
  change (lines_size ((lit "X-Peer: " ++ host peer)
                        :: drop (Proxy.first_blank (split_lf data) 0) (split_lf data)))
    with (S (length (lit "X-Peer: " ++ host peer)
             + lines_size (drop (Proxy.first_blank (split_lf data) 0) (split_lf data)))).
  pose proof (lines_size_app (take (Proxy.first_blank (split_lf data) 0) (split_lf data))
                (drop (Proxy.first_blank (split_lf data) 0) (split_lf data))) as Hsum.
  rewrite take_drop, <- join_size, join_split_lf in Hsum by apply split_lf_nonempty.
  rewrite length_app.
  change (length (lit "X-Peer: ")) with 8%nat. lia.
Qed.

(** X4. A body without header section, empty or starting with a line
    feed, gets the peer line as its first line: what is delivered is the
    peer line, a line feed and the body. *)
Theorem X4_no_header_section self R peer mailfrom rcpttos data :
  from_option (N.eqb LF) true (head data) = true ->
  Proxy.process_message self R peer mailfrom rcpttos data
  = relay self R mailfrom rcpttos (lit "X-Peer: " ++ host peer ++ [LF] ++ data).
Proof.
  intros Hd. rewrite process_message_with_peer_line. f_equal.
  destruct data as [|c data].
  { change (with_peer_line peer []) with ((lit "X-Peer: " ++ host peer) ++ [LF]).
    by rewrite <- app_assoc. }
  unfold with_peer_line. cbn [head from_option] in Hd. apply N.eqb_eq in Hd as <-.
  cbn [split_lf]. replace (N.eqb LF LF) with true by done.
  cbn [Proxy.first_blank not_]. unfold list_insert_at. cbn [take drop app].
  pose proof (split_lf_nonempty data) as Hne.
  pose proof (join_split_lf data) as Hj.
  destruct (split_lf data) as [|l ls]; [done|].
  change (join NEWLINE ((lit "X-Peer: " ++ host peer) :: [] :: l :: ls))
    with ((lit "X-Peer: " ++ host peer) ++ NEWLINE ++ [] ++ NEWLINE
            ++ join NEWLINE (l :: ls)).
  rewrite Hj. by rewrite <- !app_assoc.
Qed.

Lemma X4_witness :
  Proxy.process_message (Proxy.mk (lit "relay.example") 25)
    (mkRemote None (inr ∅) None) (mkPeer (lit "192.0.2.7") 4000)
    (lit "a@x") [lit "b@y"] ([LF] ++ lit "text")
  = relay (Proxy.mk (lit "relay.example") 25) (mkRemote None (inr ∅) None)
      (lit "a@x") [lit "b@y"] (lit "X-Peer: 192.0.2.7" ++ [LF; LF] ++ lit "text").
Proof.
  exact (X4_no_header_section (Proxy.mk (lit "relay.example") 25)
           (mkRemote None (inr ∅) None) (mkPeer (lit "192.0.2.7") 4000)
           (lit "a@x") [lit "b@y"] ([LF] ++ lit "text") eq_refl).
Defined.

(** The scan cuts the lines in two: the lines before the first blank one,
    and the rest, which is empty or starts with the blank line. *)
Lemma scan_split (lines : list str) :
  exists headers rest,
    lines = headers ++ rest
    /\ has_blank headers = false
    /\ (rest = [] \/ exists rest', rest = [] :: rest')
    /\ Proxy.first_blank lines 0 = length headers.
Proof.
  destruct (has_blank lines) eqn:Hb.
  - apply has_blank_split in Hb as (headers & rest & -> & Hh).
    exists headers, ([] :: rest). split_and!; [done|done|right; by eexists|].
    by rewrite first_blank_app.
  - exists lines, []. split_and!; [by rewrite app_nil_r|done|by left|].
    by rewrite first_blank_none.
Qed.

Lemma first_blank_prefix (headers rest : list str) :
  has_blank headers = false -> (rest = [] \/ exists rest', rest = [] :: rest') ->
  Proxy.first_blank (headers ++ rest) 0 = length headers.
Proof.
  intros Hh [->|[rest' ->]].
  - rewrite app_nil_r. by rewrite first_blank_none.
  - by rewrite first_blank_app.
Qed.

(** X5. Two relays in a row: when the body a first [Proxy] delivered
    (for a peer whose host holds no line feed) goes through a second one,
    the second peer line is put right after the first, both before the
    first blank line of the original body, or both at its end. *)
Theorem X5_second_relay_after_first self R peer1 peer2 mailfrom rcpttos data :
  LF ∉ host peer1 ->
  let lines := split_lf data in
  let i := Proxy.first_blank lines 0 in
  Proxy.process_message self R peer2 mailfrom rcpttos (with_peer_line peer1 data)
  = relay self R mailfrom rcpttos
      (join NEWLINE
         (take i lines ++ (lit "X-Peer: " ++ host peer1)
            :: (lit "X-Peer: " ++ host peer2) :: drop i lines)).
Proof.
  intros Hh lines i. rewrite process_message_with_peer_line. f_equal.
  unfold with_peer_line at 1. fold (with_peer_line peer1 data).
  unfold with_peer_line at 1 2. fold lines. fold i.
  rewrite split_lf_join
    by (apply list_insert_at_nonempty || by apply inserted_lines_LF_free).
  destruct (scan_split lines) as (headers & rest & Hl & Hb & Hrest & Hi).
  fold i in Hi. rewrite Hi, Hl.
  rewrite list_insert_at_app, take_app_length, drop_app_length.
  replace (headers ++ (lit "X-Peer: " ++ host peer1) :: rest)
    with ((headers ++ [lit "X-Peer: " ++ host peer1]) ++ rest)
    by (by rewrite <- app_assoc).
  rewrite first_blank_prefix; [|unfold has_blank in *; by rewrite existsb_app, Hb|done].
  rewrite list_insert_at_app. by rewrite <- app_assoc.
Qed.

Lemma X5_witness :
  Proxy.process_message (Proxy.mk (lit "relay.example") 25)
    (mkRemote None (inr ∅) None) (mkPeer (lit "198.51.100.1") 4001)
    (lit "a@x") [lit "b@y"]
    (with_peer_line (mkPeer (lit "192.0.2.7") 4000)
       (lit "Subject: hi" ++ [LF; LF] ++ lit "text"))
  = relay (Proxy.mk (lit "relay.example") 25) (mkRemote None (inr ∅) None)
      (lit "a@x") [lit "b@y"]
      (lit "Subject: hi" ++ [LF] ++ lit "X-Peer: 192.0.2.7" ++ [LF]
         ++ lit "X-Peer: 198.51.100.1" ++ [LF; LF] ++ lit "text").
Proof.
  exact (X5_second_relay_after_first (Proxy.mk (lit "relay.example") 25)
           (mkRemote None (inr ∅) None) (mkPeer (lit "192.0.2.7") 4000)
           (mkPeer (lit "198.51.100.1") 4001) (lit "a@x") [lit "b@y"]
           (lit "Subject: hi" ++ [LF; LF] ++ lit "text")
           (bool_decide_unpack (LF ∉ lit "192.0.2.7") I)).
Defined.

(** ** RelayForwarder: the outcomes of a delivery *)

(** X6. When the three calls on the session return, [_deliver] returns
    what [sendmail] returned, unchanged, and logs nothing;
    [process_message] then logs that dictionary once, also when it is
    empty, after the one submission of the body with the peer line. *)
Theorem X6_accepted_or_partly_refused (self : Proxy.t) (peer : Peer)
    (mailfrom : str) (rcpttos : list str) (data : str) (returned : refusals) :
  let R := mkRemote None (inr returned) None in
  let session body :=
    [Connect (Proxy._hostname self) (Proxy._port self);
     Sendmail mailfrom rcpttos body; Quit] in
  run (Proxy._deliver self R mailfrom rcpttos data) = (inr returned, session data)
  /\ run (Proxy.process_message self R peer mailfrom rcpttos data)
     = (inr tt,
        session (with_peer_line peer data)
          ++ [LogInfo "we got some refusals: %s" (ArgRefused returned)]).
Proof.
  intros R session. split.
  - unfold run. by rewrite deliver_unfold.
  - rewrite process_message_with_peer_line.
    unfold relay, run, mbind, M_bind. by rewrite deliver_unfold.
Qed.

(** X7. When the attempt ends with [SMTPRecipientsRefused], [_deliver]
    returns the [recipients] of the exception as they are, whatever the
    recipients of the transaction, and notes the refusal in the log. *)
Theorem X7_all_refused_verbatim self R mailfrom rcpttos data recipients :
  attempt_failure R = Some (SMTPRecipientsRefused recipients) ->
  run (Proxy._deliver self R mailfrom rcpttos data)
  = (inr recipients,
     session_calls self R mailfrom rcpttos data
       ++ [LogInfo "got SMTPRecipientsRefused" ArgNone]).
Proof. intros Hf. unfold run. by rewrite deliver_unfold, Hf. Qed.

Lemma X7_witness :
  let refused : refusals := {[ lit "b@y" := (550%Z, Str (lit "no such user")) ]} in
  run (Proxy._deliver (Proxy.mk (lit "relay.example") 25)
         (mkRemote None (inl (SMTPRecipientsRefused refused)) None)
         (lit "a@x") [lit "b@y"] (lit "text"))
  = (inr refused,
     [Connect (lit "relay.example") 25; Sendmail (lit "a@x") [lit "b@y"] (lit "text");
      Quit; LogInfo "got SMTPRecipientsRefused" ArgNone]).
Proof.
  exact (X7_all_refused_verbatim (Proxy.mk (lit "relay.example") 25)
           (mkRemote None
              (inl (SMTPRecipientsRefused
                      {[ lit "b@y" := (550%Z, Str (lit "no such user")) ]})) None)
           (lit "a@x") [lit "b@y"] (lit "text") _ eq_refl).
Defined.

(** X8. An exception that is neither [SMTPRecipientsRefused] nor another
    [OSError] is not absorbed: it leaves [_deliver] and [process_message]
    after the calls on the session, and no refusal is logged. *)
Theorem X8_unexpected_exception_escapes self R peer mailfrom rcpttos data e :
  attempt_failure R = Some e -> is_caught e = false ->
  (run (Proxy._deliver self R mailfrom rcpttos data)).1 = inl e
  /\ run (Proxy.process_message self R peer mailfrom rcpttos data)
     = (inl e, session_calls self R mailfrom rcpttos (with_peer_line peer data)).
Proof.
  intros Hf He. split.
  - unfold run. rewrite deliver_unfold, Hf. by destruct e.
  - rewrite process_message_with_peer_line.
    unfold relay, run, mbind, M_bind. rewrite deliver_unfold, Hf.
    by destruct e.
Qed.

Lemma X8_witness :
  let R := mkRemote None (inl (OtherException "UnicodeEncodeError")) None in
  (run (Proxy._deliver (Proxy.mk (lit "relay.example") 25) R
          (lit "a@x") [lit "b@y"] [233])).1
  = inl (OtherException "UnicodeEncodeError")
  /\ run (Proxy.process_message (Proxy.mk (lit "relay.example") 25) R
            (mkPeer (lit "192.0.2.7") 4000) (lit "a@x") [lit "b@y"] [233])
     = (inl (OtherException "UnicodeEncodeError"),
        [Connect (lit "relay.example") 25;
         Sendmail (lit "a@x") [lit "b@y"] ([233; LF] ++ lit "X-Peer: 192.0.2.7");
         Quit]).
Proof.
  exact (X8_unexpected_exception_escapes (Proxy.mk (lit "relay.example") 25)
           (mkRemote None (inl (OtherException "UnicodeEncodeError")) None)
           (mkPeer (lit "192.0.2.7") 4000) (lit "a@x") [lit "b@y"] [233]
           (OtherException "UnicodeEncodeError") eq_refl eq_refl).
Defined.

Lemma refuse_each_dom (reply : Z * content) (rcpts : list str) (d : refusals) :
  dom (foldl (fun d r => <[r := reply]> d) d rcpts) = dom d ∪ list_to_set rcpts.
Proof.
  revert d. induction rcpts as [|r rcpts IH]; intros d; cbn [foldl list_to_set].
  - set_solver.
  - rewrite IH, dom_insert_L. set_solver.
Qed.

(** X9. When the relay cannot be reached, that is when [connect] raises
    an [OSError], nothing is submitted: [_deliver] logs the exception and
    returns a dictionary whose keys are exactly the recipients of the
    transaction, each with the code and message of the failure or their
    defaults. *)
Theorem X9_unreachable_relay self R mailfrom rcpttos data cls smtp_code smtp_error :
  connect_outcome R = Some (OSError cls smtp_code smtp_error) ->
  exists refused : refusals,
    run (Proxy._deliver self R mailfrom rcpttos data)
    = (inr refused,
       [Connect (Proxy._hostname self) (Proxy._port self);
        LogException "got" (ArgClass cls)])
    /\ dom refused = list_to_set rcpttos
    /\ forall r reply, refused !! r = Some reply ->
         reply = (default (-1)%Z smtp_code, default (Str (lit "ignore")) smtp_error).
Proof.
  intros Hc. unfold run. rewrite deliver_unfold.
  unfold attempt_failure, attempt_refused, session_calls. rewrite Hc. cbn zeta.
  eexists. split; [reflexivity|]. split.
  - rewrite refuse_each_dom. set_solver.
  - intros r reply. rewrite refuse_each_lookup.
    destruct (decide (r ∈ rcpttos)); [congruence|by rewrite lookup_empty].
Qed.

Lemma X9_witness :
  exists refused : refusals,
    run (Proxy._deliver (Proxy.mk (lit "relay.example") 25)
           (mkRemote (Some (OSError "ConnectionRefusedError" None None)) (inr ∅) None)
           (lit "a@x") [lit "b@y"; lit "b@y"] (lit "text"))
    = (inr refused,
       [Connect (lit "relay.example") 25;
        LogException "got" (ArgClass "ConnectionRefusedError")])
    /\ dom refused = list_to_set [lit "b@y"; lit "b@y"]
    /\ forall r reply, refused !! r = Some reply ->
         reply = ((-1)%Z, Str (lit "ignore")).
Proof.
  exact (X9_unreachable_relay (Proxy.mk (lit "relay.example") 25)
           (mkRemote (Some (OSError "ConnectionRefusedError" None None)) (inr ∅) None)
           (lit "a@x") [lit "b@y"; lit "b@y"] (lit "text")
           "ConnectionRefusedError" None None eq_refl).
Defined.

(** ** DebugPrinter: construction and output *)

(** X10. [Debugging.from_cli] accepts three argument lists and no other:
    none and [["stdout"]] give a handler on standard output, [["stderr"]]
    one on standard error, and anything else ends in the usage error. *)
Theorem X10_from_cli_accepts_three_lists (args : list str) :
  Debugging.from_cli args
  = if bool_decide (args = [] \/ args = [lit "stdout"]) then inr (Debugging.mk Stdout)
    else if bool_decide (args = [lit "stderr"]) then inr (Debugging.mk Stderr)
    else inl (SystemExit 2 (lit "Debugging usage: [stdout|stderr]")).
Proof.
  unfold Debugging.from_cli.
  destruct args as [|arg [|arg' args]].
  - reflexivity.
  - cbn [length lookup list_lookup].
    rewrite (bool_decide_eq_false_2 (1 = 0)%nat) by lia.
    rewrite (bool_decide_eq_false_2 (1 < 1)%nat) by lia.
    destruct (decide (arg = lit "stdout")) as [->|Hout]; [reflexivity|].
    rewrite (bool_decide_eq_false_2 (Some arg = Some (lit "stdout"))) by congruence.
    rewrite (bool_decide_eq_false_2 ([arg] = [] \/ [arg] = [lit "stdout"]))
      by (intros [?|?]; congruence).
    destruct (decide (arg = lit "stderr")) as [->|Herr]; [reflexivity|].
    rewrite (bool_decide_eq_false_2 (Some arg = Some (lit "stderr"))) by congruence.
    by rewrite (bool_decide_eq_false_2 ([arg] = [lit "stderr"])) by congruence.
  - cbn [length].
    rewrite bool_decide_eq_false_2 by lia.
    rewrite bool_decide_eq_true_2 by lia.
    rewrite bool_decide_eq_false_2 by (intros [?|?]; congruence).
    by rewrite bool_decide_eq_false_2 by congruence.
Qed.

Section DebugMore.
Context `{PythonLib}.
Variable self : Debugging.t.
Variable peer : Peer.
Implicit Types (mailfrom : str) (rcpttos : list str) (kws : gmap string (list str)).

(** X11. On a body with a blank line [Debugging] prints the peer line
    once, immediately before the first blank line, between the separators
    and after the option lines; the lines of a [bytes] body are decoded,
    the blank one too. *)
Theorem X11_peer_line_before_first_blank mailfrom rcpttos kws :
  let framed texts :=
    (inr tt,
     printed self
       <$> ([lit "---------- MESSAGE FOLLOWS ----------"] ++ option_lines kws
              ++ texts ++ [lit "------------ END MESSAGE ------------"])) in
  (forall s headers rest,
      str_splitlines s = headers ++ [] :: rest -> has_blank headers = false ->
      run (Debugging.process_message self peer mailfrom rcpttos (Str s) kws)
      = framed (headers ++ _format_peer peer :: [] :: rest))
  /\ (forall b headers rest,
      bytes_splitlines b = headers ++ [] :: rest -> has_blank headers = false ->
      run (Debugging.process_message self peer mailfrom rcpttos (Bytes b) kws)
      = framed ((decode_utf8_replace <$> headers)
                  ++ _format_peer peer :: decode_utf8_replace []
                     :: (decode_utf8_replace <$> rest))).
Proof.
  intros framed. split.
  - intros s headers rest Hs Hh. apply debugging_run. intros st.
    cbn [Debugging._print_message_content]. rewrite Hs.
    rewrite print_lines_blank by done.
    by rewrite fmap_app, !fmap_cons.
  - intros b headers rest Hb Hh. apply debugging_run. intros st.
    cbn [Debugging._print_message_content]. rewrite Hb.
    rewrite print_lines_blank by done.
    by rewrite fmap_app, !fmap_cons, <- !list_fmap_compose.
Qed.

Lemma body_texts_length {A} (peer_line : str) (decode : list A -> str) lines :
  length (body_texts peer_line decode lines)
  = (length lines + (if has_blank lines then 1 else 0))%nat.
Proof.
  induction lines as [|line rest IH]; [done|].
  cbn [body_texts]. unfold has_blank in *. cbn [existsb].
  destruct (not_ line); cbn [orb length].
  - rewrite length_fmap. lia.
  - rewrite IH. lia.
Qed.

(** X12. All that [Debugging.process_message] prints, in order and on its
    own stream: the opening separator, the option lines, the lines of the
    body with the peer line before the first blank one if there is one,
    the closing separator.  That is two lines, the option lines, one line
    for each line of the body, and one more exactly when a line of the
    body is blank. *)
Theorem X12_exact_output mailfrom rcpttos data kws :
  let texts :=
    [lit "---------- MESSAGE FOLLOWS ----------"] ++ option_lines kws
      ++ content_texts peer data ++ [lit "------------ END MESSAGE ------------"] in
  run (Debugging.process_message self peer mailfrom rcpttos data kws)
  = (inr tt, printed self <$> texts)
  /\ length texts
     = (2 + length (option_lines kws) + length (content_lines data)
        + (if content_has_blank data then 1 else 0))%nat.
Proof.
  intros texts. split; [apply debugging_output|].
  unfold texts. rewrite !length_app. cbn [length].
  destruct data as [s|b]; cbn [content_texts content_lines content_has_blank];
    rewrite body_texts_length, ?length_fmap; lia.
Qed.

(** X13. Of the keyword arguments only [mail_options] and [rcpt_options]
    show: two calls whose keywords agree on these two keys print the
    same, whatever other keys either has. *)
Theorem X13_other_keywords_ignored mailfrom rcpttos data kws kws' :
  kws !! "mail_options"%string = kws' !! "mail_options"%string ->
  kws !! "rcpt_options"%string = kws' !! "rcpt_options"%string ->
  run (Debugging.process_message self peer mailfrom rcpttos data kws)
  = run (Debugging.process_message self peer mailfrom rcpttos data kws').
Proof.
  intros Hmail Hrcpt.
  assert (exists body, forall st,
             Debugging._print_message_content self peer data st
             = (inr tt, mkState (refused st)
                          (events st ++ (printed self <$> body)))) as [body Hbody].
  { destruct data as [s|b]; apply print_lines_stream. }
  rewrite !(debugging_run _ _ _ _ _ _ body Hbody).
  unfold option_lines. by rewrite Hmail, Hrcpt.
Qed.
End DebugMore.

Lemma X11_witness :
  run (Debugging.process_message (H := example_lib) (Debugging.mk Stdout)
         (mkPeer (lit "192.0.2.7") 4000) (lit "a@x") [lit "b@y"]
         (Str (lit "Subject: hi" ++ [LF; LF] ++ lit "text")) ∅)
  = (inr tt,
     [Print (lit "---------- MESSAGE FOLLOWS ----------") Stdout;
      Print (lit "Subject: hi") Stdout;
      Print (lit "X-Peer: ('192.0.2.7', 4000)") Stdout;
      Print [] Stdout;
      Print (lit "text") Stdout;
      Print (lit "------------ END MESSAGE ------------") Stdout]).
Proof.
  exact (proj1 (X11_peer_line_before_first_blank (H := example_lib)
                  (Debugging.mk Stdout) (mkPeer (lit "192.0.2.7") 4000)
                  (lit "a@x") [lit "b@y"] ∅)
           (lit "Subject: hi" ++ [LF; LF] ++ lit "text")
           [lit "Subject: hi"] [lit "text"] eq_refl eq_refl).
Defined.

Lemma X13_witness :
  run (Debugging.process_message (H := example_lib) (Debugging.mk Stdout)
         (mkPeer (lit "192.0.2.7") 4000) (lit "a@x") [lit "b@y"]
         (Str (lit "text")) {[ "mail_options"%string := [lit "BODY=8BITMIME"] ]})
  = run (Debugging.process_message (H := example_lib) (Debugging.mk Stdout)
           (mkPeer (lit "192.0.2.7") 4000) (lit "a@x") [lit "b@y"]
           (Str (lit "text"))
           {[ "mail_options"%string := [lit "BODY=8BITMIME"];
              "loop"%string := [] ]}).
Proof.
  exact (X13_other_keywords_ignored (H := example_lib) (Debugging.mk Stdout)
           (mkPeer (lit "192.0.2.7") 4000) (lit "a@x") [lit "b@y"]
           (Str (lit "text")) {[ "mail_options"%string := [lit "BODY=8BITMIME"] ]}
           {[ "mail_options"%string := [lit "BODY=8BITMIME"]; "loop"%string := [] ]}
           eq_refl eq_refl).
Defined.

(** ** DebugPrinter: a body as bytes and as text *)

(** [splitlines] commutes with a change of alphabet that keeps the line
    boundaries.  By induction on the length, for the CR LF pair. *)
Lemma splitlines_gen_fmap {A B} (f : A -> B)
    (brkA crA lfA : A -> bool) (brkB crB lfB : B -> bool) (n : nat) :
  forall s : list A, (length s <= n)%nat ->
    Forall (fun x => brkB (f x) = brkA x /\ crB (f x) = crA x /\ lfB (f x) = lfA x) s ->
    splitlines_gen brkB crB lfB (f <$> s)
    = (fmap (M:=list) f) <$> splitlines_gen brkA crA lfA s.
Proof.
  induction n as [|n IH]; intros s Hlen Hs.
  - destruct s; [done|cbn in Hlen; lia].
  - destruct s as [|c s']; [done|]. cbn [length] in Hlen.
    apply Forall_cons in Hs as [(Hbrk & Hcr & Hlf) Hs'].
    rewrite fmap_cons. cbn [splitlines_gen]. rewrite Hbrk.
    destruct (brkA c).
    + rewrite fmap_cons. f_equal.
      destruct s' as [|d s'']; [done|].
      apply Forall_cons in Hs' as [Hd Hs'']. pose proof Hd as (_ & _ & Hlfd).
      rewrite fmap_cons, Hcr, Hlfd. cbn [length] in Hlen.
      destruct (crA c && lfA d).
      * apply IH; [lia|done].
      * rewrite <- fmap_cons. apply IH; [cbn [length]; lia|].
        by constructor.
    + rewrite IH by (lia || done).
      by destruct (splitlines_gen brkA crA lfA s').
Qed.

Lemma plain_byte_boundaries (x : byte) :
  plain_byte x = true ->
  str_is_break (Byte.to_N x) = (byte_is LF x || byte_is CR x)
  /\ N.eqb CR (Byte.to_N x) = byte_is CR x
  /\ N.eqb LF (Byte.to_N x) = byte_is LF x.
Proof. destruct x; intros Hx; try discriminate Hx; by vm_compute. Qed.

(** Plain bytes and their code points split into the same lines. *)
Lemma plain_bytes_lines (b : bytes) :
  forallb plain_byte b = true ->
  str_splitlines (Byte.to_N <$> b) = (fmap (M:=list) Byte.to_N) <$> bytes_splitlines b.
Proof.
  intros Hb. unfold str_splitlines, bytes_splitlines.
  apply (splitlines_gen_fmap _ _ _ _ _ _ _ (length b)); [done|].
  apply Forall_forall. intros x Hx.
  apply plain_byte_boundaries.
  rewrite forallb_forall in Hb. apply Hb. by apply list_elem_of_In.
Qed.

Section DebugBytes.
Context `{PythonLib}.
Variable self : Debugging.t.
Variable peer : Peer.

(** The loop prints the same for two lists of lines that are blank at the
    same places and print the same. *)
Lemma print_lines_same {A B} (decodeA : list A -> str) (decodeB : list B -> str)
    (linesA : list (list A)) (linesB : list (list B)) in_headers st :
  decodeA <$> linesA = decodeB <$> linesB ->
  not_ <$> linesA = not_ <$> linesB ->
  Debugging.print_lines self peer decodeA linesA in_headers st
  = Debugging.print_lines self peer decodeB linesB in_headers st.
Proof.
  revert linesB in_headers st.
  induction linesA as [|a linesA IH]; intros [|b linesB] in_headers st Hd Hn;
    try discriminate Hd; [done|].
  cbn [fmap list_fmap] in Hd, Hn.
  injection Hd as Hd1 Hd2. injection Hn as Hn1 Hn2.
  cbn [Debugging.print_lines]. rewrite Hn1, Hd1.
  unfold mbind, M_bind.
  destruct ((if in_headers && not_ b
             then emit (Print (_format_peer peer) (Debugging.stream self))
             else mret tt) st) as [[e|[]] st1]; [done|].
  destruct (emit (Print (decodeB b) (Debugging.stream self)) st1) as [[e|[]] st2];
    [done|].
  by apply IH.
Qed.

(** X14. A [bytes] body of ASCII bytes without VT, FF, FS, GS and RS,
    whose lines decode to their own code points (as UTF-8 decodes ASCII),
    is printed exactly as the [str] body of the same characters: the same
    lines, the peer line at the same place. *)
Theorem X14_plain_bytes_print_as_text mailfrom rcpttos (b : bytes) kws :
  forallb plain_byte b = true ->
  decode_utf8_replace <$> bytes_splitlines b = (fmap (M:=list) Byte.to_N) <$> bytes_splitlines b ->
  run (Debugging.process_message self peer mailfrom rcpttos (Bytes b) kws)
  = run (Debugging.process_message self peer mailfrom rcpttos
           (Str (Byte.to_N <$> b)) kws).
Proof.
  intros Hplain Hdecode.
  destruct (print_lines_stream self peer decode_utf8_replace (bytes_splitlines b) true)
    as [body Hbody].
  rewrite (debugging_run self peer mailfrom rcpttos (Bytes b) kws body) by exact Hbody.
  rewrite (debugging_run self peer mailfrom rcpttos (Str (Byte.to_N <$> b)) kws body);
    [done|].
  intros st. rewrite <- Hbody. cbn [Debugging._print_message_content].
  rewrite plain_bytes_lines by done. symmetry. apply print_lines_same.
  - by rewrite list_fmap_id.
  - rewrite <- list_fmap_compose. apply list_fmap_ext. intros _ l _.
    by destruct l.
Qed.
End DebugBytes.

Lemma X14_witness :
  let b := [x53; x75; x62; x3a; x0d; x0a; x0d; x0a; x74; x0a] in
  run (Debugging.process_message (H := example_lib) (Debugging.mk Stdout)
         (mkPeer (lit "192.0.2.7") 4000) (lit "a@x") [lit "b@y"] (Bytes b) ∅)
  = run (Debugging.process_message (H := example_lib) (Debugging.mk Stdout)
           (mkPeer (lit "192.0.2.7") 4000) (lit "a@x") [lit "b@y"]
           (Str (Byte.to_N <$> b)) ∅).
Proof.
  exact (X14_plain_bytes_print_as_text (H := example_lib) (Debugging.mk Stdout)
           (mkPeer (lit "192.0.2.7") 4000) (lit "a@x") [lit "b@y"]
           [x53; x75; x62; x3a; x0d; x0a; x0d; x0a; x74; x0a] ∅ eq_refl eq_refl).
Defined.

(** A form feed is a line boundary in a [str] and none in [bytes]: the
    text form of such a body is printed on two lines, the bytes form on
    one. *)
Example form_feed_bytes_and_text :
  content_lines (H := example_lib) (Bytes [x61; x0c; x62]) = [[97; 12; 98]]
  /\ content_lines (H := example_lib) (Str [97; 12; 98]) = [[97]; [98]].
Proof. split; reflexivity. Qed.

(** ** SinkHandler *)

(** X15. [Sink.from_cli] builds the handler from the empty argument list
    only and ends in its usage error on every other list; the handler
    then does nothing on a message: it returns and leaves no event. *)
Theorem X15_sink_takes_no_argument (args : list str) self peer mailfrom rcpttos data kws :
  Sink.from_cli args
  = (if bool_decide (args = []) then inr Sink.mk
     else inl (SystemExit 2 (lit "Sink handler does not accept arguments")))
  /\ run (Sink.process_message self peer mailfrom rcpttos data kws) = (inr tt, []).
Proof.
  split; [|done]. unfold Sink.from_cli. destruct args as [|arg args]; [done|].
  cbn [length]. by rewrite bool_decide_eq_true_2 by lia.
Qed.

(** ** MessageEnricher: the two classes and the recipients header *)
Section EnricherMore.
Context `{PythonLib}.
Context {Handled Loop : Type}.
Variable handle_message : EmailMessage Payload -> Handled.
Variable handle_message_async : EmailMessage Payload -> Loop -> Handled.

(** X16. [AsyncMessage.process_message] does what
    [Message.process_message] does with the handling step given the loop:
    the same message for a [str] or [bytes] body, the same assertion
    failure for anything else. *)
Theorem X16_async_as_message self peer mailfrom rcpttos (data : object) loop :
  AsyncMessage.process_message handle_message_async self peer mailfrom rcpttos
    data loop
  = Message.process_message (fun message => handle_message_async message loop)
      self peer mailfrom rcpttos data.
Proof. by destruct data as [[s|b]|type_str]. Qed.

(** X17. The [X-RcptTos] header does not tell the recipients apart:
    two recipients and the one recipient made of them with a comma and a
    space in between give the same message. *)
Theorem X17_recipients_header_ambiguous self peer mailfrom (r1 r2 : str) data :
  Message.process_message handle_message self peer mailfrom [r1; r2] data
  = Message.process_message handle_message self peer mailfrom
      [r1 ++ lit ", " ++ r2] data.
Proof. by destruct data as [[s|b]|type_str]. Qed.

(** X18. The provenance headers come last and in a fixed order: the
    message handed over has three headers more than the decoded one, its
    last three are [X-Peer], [X-MailFrom] and [X-RcptTos], and a header
    that the body already had under one of these names is still the first
    of that name. *)
Theorem X18_provenance_headers_last self peer mailfrom rcpttos c :
  exists message,
    Message.process_message (fun message => message) self peer mailfrom rcpttos
      (Data c) = inr message
    /\ length (_headers message) = (length (_headers (decoded self c)) + 3)%nat
    /\ drop (length (_headers (decoded self c))) (_headers message).*1
       = [lit "X-Peer"; lit "X-MailFrom"; lit "X-RcptTos"]
    /\ forall name value,
         list_find (fun h => h.1 = name) (_headers (decoded self c)) = Some value ->
         list_find (fun h => h.1 = name) (_headers message) = Some value.
Proof.
  exists (__setitem__ (lit "X-RcptTos") (join COMMASPACE rcpttos)
            (__setitem__ (lit "X-MailFrom") mailfrom
               (__setitem__ (lit "X-Peer") (repr_peer peer) (decoded self c)))).
  split.
  - destruct c as [s|b]; reflexivity.
  - assert (forall m : EmailMessage Payload,
               _headers (__setitem__ (lit "X-RcptTos") (join COMMASPACE rcpttos)
                  (__setitem__ (lit "X-MailFrom") mailfrom
                     (__setitem__ (lit "X-Peer") (repr_peer peer) m)))
               = _headers m ++ [(lit "X-Peer", repr_peer peer);
                                (lit "X-MailFrom", mailfrom);
                                (lit "X-RcptTos", join COMMASPACE rcpttos)]) as Hh.
    { intros m. unfold __setitem__. cbn. by rewrite <- !app_assoc. }
    assert (forall m : EmailMessage Payload,
               length (_headers m ++ [(lit "X-Peer", repr_peer peer);
                                      (lit "X-MailFrom", mailfrom);
                                      (lit "X-RcptTos", join COMMASPACE rcpttos)])
               = (length (_headers m) + 3)%nat
               /\ drop (length (_headers m))
                    (_headers m ++ [(lit "X-Peer", repr_peer peer);
                                    (lit "X-MailFrom", mailfrom);
                                    (lit "X-RcptTos", join COMMASPACE rcpttos)]).*1
                  = [lit "X-Peer"; lit "X-MailFrom"; lit "X-RcptTos"]
               /\ forall name value,
                    list_find (fun h => h.1 = name) (_headers m) = Some value ->
                    list_find (fun h => h.1 = name)
                      (_headers m ++ [(lit "X-Peer", repr_peer peer);
                                      (lit "X-MailFrom", mailfrom);
                                      (lit "X-RcptTos", join COMMASPACE rcpttos)])
                    = Some value) as Hm.
    { intros m. split_and!.
      - rewrite length_app. cbn [length]. lia.
      - rewrite fmap_app, <- (length_fmap fst (_headers m)), drop_app_length. done.
      - intros name [i h] Hfind. apply list_find_app_l. exact Hfind. }
    rewrite Hh. apply Hm.
Qed.
End EnricherMore.

(** An exception of [sendmail] does not end the attempt when [quit] raises
    in the [finally]: the exception of [quit] replaces it, and an
    [OSError] of [quit] is absorbed like any other. *)
Example sendmail_exception_replaced_by_quit :
  run (Proxy._deliver (Proxy.mk (lit "relay.example") 25)
         (mkRemote None (inl (OtherException "UnicodeEncodeError"))
            (Some (OSError "SMTPServerDisconnected" None None)))
         (lit "a@x") [lit "b@y"] [233])
  = (inr {[ lit "b@y" := ((-1)%Z, Str (lit "ignore")) ]},
     [Connect (lit "relay.example") 25; Sendmail (lit "a@x") [lit "b@y"] [233]; Quit;
      LogException "got" (ArgClass "SMTPServerDisconnected")]).
Proof. reflexivity. Qed.
